(** * transwarp/db.py: lazy connections, the thread-local context and the
      connection and transaction scopes

    A shallow embedding of [src/awesome-python-webapp/www/transwarp/db.py].
    Python methods become computations in a small monad that threads the module
    globals and the receiver object, may raise, and records a trace of the
    calls that reach the database driver, of the log records, and of the
    entries into the context's and the transaction scope's methods. *)

From Stdlib Require Import ZArith List String Bool Lia.
Import ListNotations.
Open Scope string_scope.
Open Scope Z_scope.

(** ** Exceptions and Python values *)

(** The exceptions that occur: the two the interpreter raises by itself on the
    paths of this module, the one the doctests raise inside a scope, and the
    errors of the driver. *)
Inductive exn : Type :=
| AttributeError            (* attribute access on None *)
| TypeError                 (* raising something that is not an exception *)
| StandardError (msg : string)
| DriverError (code : nat).

(** What a [raise] statement may be handed. *)
Inductive pyobj : Type :=
| PyNone
| PyExn (e : exn).

Inductive outcome (A : Type) : Type :=
| Return (a : A)
| Raised (e : exn).
Arguments Return {A} a.
Arguments Raised {A} e.

(** ** The driver and the trace *)

(** A driver connection is identified by the tick at which the factory made
    it. *)
Definition RawConnection := nat.

Inductive driver_call : Type :=
| DConnect                        (* psycopg2.connect with the stored params *)
| DCursor (c : RawConnection)     (* c.cursor()   *)
| DCommit (c : RawConnection)     (* c.commit()   *)
| DRollback (c : RawConnection)   (* c.rollback() *)
| DClose (c : RawConnection)      (* c.close()    *)
| DExecute (cur : nat)            (* cur.execute(sql, args) *)
| DCursorClose (cur : nat).       (* cur.close()  *)

Inductive level : Type := INFO | WARNING.

(** Method entries recorded in the trace: [_DbCtx.init], [_DbCtx.cleanup],
    [_TransactionCtx.commit] and [_TransactionCtx.rollback]. *)
Inductive method : Type := CtxInit | CtxCleanup | TxCommit | TxRollback.

Inductive event : Type :=
| Drv (d : driver_call)
| Log (l : level) (msg : string)
| Call (m : method).

(** Connection parameters captured by the factory closure. *)
Record params : Type := {
  user : string; password : string; database : string;
  host : string; port : Z
}.

(** [class _Engine]: holds the factory. *)
Module _Engine.
Record t : Type := { _connect : params }.
Definition __init__ (connect : params) : t := {| _connect := connect |}.
End _Engine.

(** The module globals other than [_db_ctx], together with the outside world:
    the driver answers the [n]-th call made to it either normally or with an
    exception. *)
Record env : Type := {
  engine : option _Engine.t;
  ticks : nat;
  driver : nat -> driver_call -> option exn
}.

Definition set_engine (g : env) (e : option _Engine.t) : env :=
  {| engine := e; ticks := ticks g; driver := driver g |}.

Definition tick (g : env) : env :=
  {| engine := engine g; ticks := S (ticks g); driver := driver g |}.

(** ** The monad *)

Record reply (S A : Type) : Type := Reply {
  outcome_of : outcome A;
  env_of : env;
  self_of : S;
  trace_of : list event
}.
Arguments Reply {S A}.
Arguments outcome_of {S A}.
Arguments env_of {S A}.
Arguments self_of {S A}.
Arguments trace_of {S A}.

(** A method with receiver state [S] and result [A]. *)
Definition M (S A : Type) : Type := env -> S -> reply S A.

Definition ret {S A} (a : A) : M S A := fun g s => Reply (Return a) g s [].

Definition raise {S A} (e : exn) : M S A := fun g s => Reply (Raised e) g s [].

(** The trace of [m] followed by the trace of [r]. *)
Definition after {S A} (t : list event) (r : reply S A) : reply S A :=
  match r with
  | Reply o g s t' => Reply o g s (t ++ t')
  end.

Definition bind {S A B} (m : M S A) (k : A -> M S B) : M S B := fun g s =>
  match m g s with
  | Reply (Return a) g1 s1 t1 => after t1 (k a g1 s1)
  | Reply (Raised e) g1 s1 t1 => Reply (Raised e) g1 s1 t1
  end.

Notation "x <- m ;; k" := (bind m (fun x => k))
  (at level 61, m at next level, right associativity).
Notation "m ;; k" := (bind m (fun _ => k))
  (at level 61, right associativity).

Definition get {S} : M S S := fun g s => Reply (Return s) g s [].
Definition put {S} (s : S) : M S unit := fun g _ => Reply (Return tt) g s [].
Definition get_engine {S} : M S (option _Engine.t) :=
  fun g s => Reply (Return (engine g)) g s [].
Definition put_engine {S} (e : option _Engine.t) : M S unit :=
  fun g s => Reply (Return tt) (set_engine g e) s [].
Definition emit {S} (e : event) : M S unit :=
  fun g s => Reply (Return tt) g s [e].

Definition logging_info {S} (msg : string) : M S unit := emit (Log INFO msg).
Definition logging_warning {S} (msg : string) : M S unit :=
  emit (Log WARNING msg).

(** [raise v]: only exception instances can be raised; anything else is a
    TypeError. *)
Definition raise_obj {S A} (v : pyobj) : M S A :=
  match v with
  | PyNone => raise TypeError
  | PyExn e => raise e
  end.

(** [try: m  except: h] with a bare [except], which catches everything. *)
Definition try_except {S A} (m : M S A) (h : M S A) : M S A := fun g s =>
  match m g s with
  | Reply (Return a) g1 s1 t1 => Reply (Return a) g1 s1 t1
  | Reply (Raised _) g1 s1 t1 => after t1 (h g1 s1)
  end.

(** [try: m  finally: fin]: [fin] always runs; an exception of [fin] replaces
    whatever [m] produced. *)
Definition try_finally {S A} (m : M S A) (fin : M S unit) : M S A := fun g s =>
  match m g s with
  | Reply o g1 s1 t1 =>
      match fin g1 s1 with
      | Reply (Return _) g2 s2 t2 => Reply o g2 s2 (t1 ++ t2)
      | Reply (Raised e) g2 s2 t2 => Reply (Raised e) g2 s2 (t1 ++ t2)
      end
  end.

(** One call into the driver: it is recorded, the clock advances, and the
    driver decides whether it raises. *)
Definition call_driver {S} (d : driver_call) : M S nat := fun g s =>
  Reply (match driver g (ticks g) d with
         | None => Return (ticks g)
         | Some e => Raised e
         end)
        (tick g) s [Drv d].

(** An attribute reference to a bound method that is not followed by a call:
    the method object is built and dropped. *)
Definition attribute_ref {S A} (_ : M S A) : M S unit := ret tt.

(** ** Module-level definitions *)

(** [def DBError(Exception): pass] is a function of one argument; calling it
    returns None. *)
Definition DBError (Exception : string) : pyobj := PyNone.

(** [_Engine.connect]: [return self._connect()], the factory being
    [lambda: psycopg2.connect with the stored params]. *)
Definition _Engine_connect {S} (self : _Engine.t) : M S RawConnection :=
  call_driver DConnect.

(** [create_engine].  In the 'mysql' branch the assignment to [engine] is
    commented out in the source; only the local [params] dictionary is
    updated, and that dictionary is dropped on return. *)
Definition create_engine {S} (user password database host : string) (port : Z)
    (db_type : string) : M S unit :=
  e <- get_engine ;;
  (match e with
   | Some _ => raise_obj (DBError "Engine is already initialized.")
   | None => ret tt
   end) ;;
  let p := {| user := user; password := password; database := database;
              host := host; port := port |} in
  (if String.eqb db_type "postgres"
   then put_engine (Some (_Engine.__init__ p)) ;;
        logging_info "Init postgres engine <%s> ok."
   else ret tt) ;;
  (if String.eqb db_type "mysql"
   then logging_info "Init mysql engine <%s> ok."
   else ret tt).

(** ** [class _LazyConnection] *)

Module _LazyConnection.

Record t : Type := { connection : option RawConnection }.

Definition __init__ : t := {| connection := None |}.

Definition cursor : M t nat :=
  self <- get ;;
  (match connection self with
   | None =>
       e <- get_engine ;;
       _connection <- match e with
                      | None => raise AttributeError
                      | Some eng => _Engine_connect eng
                      end ;;
       logging_info "[CONNECTION] [OPEN] connection <%s>..." ;;
       put {| connection := Some _connection |}
   | Some _ => ret tt
   end) ;;
  self <- get ;;
  match connection self with
  | None => raise AttributeError
  | Some c => call_driver (DCursor c)
  end.

Definition commit : M t unit :=
  self <- get ;;
  match connection self with
  | None => raise AttributeError
  | Some c => call_driver (DCommit c) ;; ret tt
  end.

Definition rollback : M t unit :=
  self <- get ;;
  match connection self with
  | None => raise AttributeError
  | Some c => call_driver (DRollback c) ;; ret tt
  end.

(** [if self.connection:] tests truthiness; a driver connection defines
    neither [__nonzero__] nor [__len__], so every one of them is true.  The
    name [connection] in the log line is the module-level function
    [connection], which exists by the time any method runs. *)
Definition cleanup : M t unit :=
  self <- get ;;
  match connection self with
  | Some _connection =>
      put {| connection := None |} ;;
      logging_info "[CONNECTION] [CLOSE] connection <%s>..." ;;
      call_driver (DClose _connection) ;;
      ret tt
  | None => ret tt
  end.

End _LazyConnection.

(** ** [class _DbCtx(threading.local)] *)

Module _DbCtx.

Record t : Type := {
  connection : option _LazyConnection.t;
  transactions : Z
}.

Definition __init__ : t := {| connection := None; transactions := 0 |}.

Definition set_connection (self : t) (c : option _LazyConnection.t) : t :=
  {| connection := c; transactions := transactions self |}.

Definition set_transactions (self : t) (n : Z) : t :=
  {| connection := connection self; transactions := n |}.

(** [self.connection.<method>()]: the method runs on the lazy connection
    the context refers to, and fails with AttributeError when that is
    None. *)
Definition on_connection {A} (m : M _LazyConnection.t A) : M t A :=
  fun g s =>
    match connection s with
    | None => Reply (Raised AttributeError) g s []
    | Some lc =>
        match m g lc with
        | Reply o g1 lc1 t1 => Reply o g1 (set_connection s (Some lc1)) t1
        end
    end.

Definition is_init (self : t) : bool :=
  negb (match connection self with None => true | Some _ => false end).

Definition init : M t unit :=
  emit (Call CtxInit) ;;
  self <- get ;;
  put (set_connection self (Some _LazyConnection.__init__)) ;;
  self <- get ;;
  put (set_transactions self 0).

Definition cleanup : M t unit :=
  emit (Call CtxCleanup) ;;
  on_connection _LazyConnection.cleanup ;;
  self <- get ;;
  put (set_connection self None).

Definition cursor : M t nat :=
  on_connection _LazyConnection.cursor.

End _DbCtx.

(** ** [class _Connection] *)

Module _Connection.

Record t : Type := { should_cleanup : bool }.

Definition __enter__ : M _DbCtx.t t :=
  ctx <- get ;;
  if negb (_DbCtx.is_init ctx)
  then _DbCtx.init ;; ret {| should_cleanup := true |}
  else ret {| should_cleanup := false |}.

(** The body of the [if] is the expression [_db_ctx.cleanup], without a
    call.  The method returns None, which is false. *)
Definition __exit__ (self : t) (exctype : option exn) : M _DbCtx.t bool :=
  (if should_cleanup self
   then attribute_ref _DbCtx.cleanup
   else ret tt) ;;
  ret false.

End _Connection.

(** ** [class _TransactionCtx] *)

Module _TransactionCtx.

Record t : Type := { should_close_conn : bool }.

Definition __enter__ : M _DbCtx.t t :=
  ctx <- get ;;
  self <- (if negb (_DbCtx.is_init ctx)
           then _DbCtx.init ;; ret {| should_close_conn := true |}
           else ret {| should_close_conn := false |}) ;;
  ctx <- get ;;
  put (_DbCtx.set_transactions ctx (_DbCtx.transactions ctx + 1)) ;;
  ctx <- get ;;
  logging_info (if _DbCtx.transactions ctx =? 1
                then "begin transaction..."
                else "join current transaction...") ;;
  ret self.

Definition commit : M _DbCtx.t unit :=
  emit (Call TxCommit) ;;
  logging_info "commit transation..." ;;
  try_except
    (_DbCtx.on_connection _LazyConnection.commit ;;
     logging_info "commit ok.")
    (logging_warning "commit failed. try rollback..." ;;
     _DbCtx.on_connection _LazyConnection.rollback ;;
     logging_warning "roll").

Definition rollback : M _DbCtx.t unit :=
  emit (Call TxRollback) ;;
  logging_warning "rollback transaction..." ;;
  _DbCtx.on_connection _LazyConnection.rollback ;;
  logging_info "rollback ok.".

Definition __exit__ (self : t) (exctype : option exn) : M _DbCtx.t bool :=
  ctx <- get ;;
  put (_DbCtx.set_transactions ctx (_DbCtx.transactions ctx - 1)) ;;
  try_finally
    (ctx <- get ;;
     if _DbCtx.transactions ctx =? 0
     then match exctype with
          | None => commit
          | Some _ => rollback
          end
     else ret tt)
    (if should_close_conn self then _DbCtx.cleanup else ret tt) ;;
  ret false.

End _TransactionCtx.

(** ** The [with] statement and client code *)

(** [with mgr: body], for a manager whose [__enter__] result is the manager
    itself: [__exit__] receives the exception of the body, if any, and the
    exception is raised again unless [__exit__] returns a true value; an
    exception of [__exit__] itself propagates in its place. *)
Definition with_ {S T} (enter : M S T) (exit : T -> option exn -> M S bool)
    (body : M S unit) : M S unit := fun g s =>
  match enter g s with
  | Reply (Raised e) g0 s0 t0 => Reply (Raised e) g0 s0 t0
  | Reply (Return mgr) g0 s0 t0 =>
      match body g0 s0 with
      | Reply o1 g1 s1 t1 =>
          let exc := match o1 with
                     | Return _ => None
                     | Raised e => Some e
                     end in
          match exit mgr exc g1 s1 with
          | Reply o2 g2 s2 t2 =>
              Reply (match o2, exc with
                     | Raised e, _ => Raised e
                     | Return true, _ => Return tt
                     | Return false, None => Return tt
                     | Return false, Some e => Raised e
                     end)
                    g2 s2 (t0 ++ t1 ++ t2)
          end
      end
  end.

(** The body of [_update], which [with_connection] wraps in
    [with connection():].  [cursor] stays None when obtaining it raises, and
    the [finally] clause then closes nothing.  The row count it returns is
    not modelled. *)
Definition _update_body : M _DbCtx.t unit :=
  logging_info "SQL: %s, ARGS: %s" ;;
  cursor <- _DbCtx.on_connection _LazyConnection.cursor ;;
  try_finally
    (call_driver (DExecute cursor) ;;
     ctx <- get ;;
     if _DbCtx.transactions ctx =? 0
     then logging_info "auto commit" ;;
          _DbCtx.on_connection _LazyConnection.commit
     else ret tt)
    (call_driver (DCursorClose cursor) ;; ret tt).

(** Code run by one thread against its [_db_ctx]. *)
Inductive stmt : Type :=
| Pass
| Seq (a b : stmt)
| RaiseStmt (e : exn)
| CursorStmt                        (* _db_ctx.cursor() *)
| UpdateStmt                        (* update(sql, ...) *)
| WithConnection (body : stmt)      (* with connection(): body *)
| WithTransaction (body : stmt).    (* with transaction(): body *)

Fixpoint exec (p : stmt) : M _DbCtx.t unit :=
  match p with
  | Pass => ret tt
  | Seq a b => exec a ;; exec b
  | RaiseStmt e => raise e
  | CursorStmt => _DbCtx.cursor ;; ret tt
  | UpdateStmt =>
      with_ _Connection.__enter__ _Connection.__exit__ _update_body
  | WithConnection body =>
      with_ _Connection.__enter__ _Connection.__exit__ (exec body)
  | WithTransaction body =>
      with_ _TransactionCtx.__enter__ _TransactionCtx.__exit__ (exec body)
  end.

(** ** Reading traces *)

Definition is_connect (e : event) : bool :=
  match e with Drv DConnect => true | _ => false end.
Definition is_commit (e : event) : bool :=
  match e with Drv (DCommit _) => true | _ => false end.
Definition is_rollback (e : event) : bool :=
  match e with Drv (DRollback _) => true | _ => false end.
Definition is_close (e : event) : bool :=
  match e with Drv (DClose _) => true | _ => false end.
Definition is_init_call (e : event) : bool :=
  match e with Call CtxInit => true | _ => false end.
Definition is_cleanup_call (e : event) : bool :=
  match e with Call CtxCleanup => true | _ => false end.
Definition is_finalize_call (e : event) : bool :=
  match e with Call TxCommit | Call TxRollback => true | _ => false end.

(** Transaction finalization: the scope's commit or rollback and the driver
    calls they make.  Connection release: the context's cleanup and the
    driver's close. *)
Definition finalization (e : event) : bool :=
  is_finalize_call e || is_commit e || is_rollback e.
Definition release (e : event) : bool :=
  is_cleanup_call e || is_close e.

(** Events that never occur inside an open transaction. *)
Definition quiet (e : event) : bool :=
  negb (finalization e || release e || is_init_call e).

Definition count (f : event -> bool) (t : list event) : nat :=
  List.length (filter f t).

(** No finalization event comes after a release event. *)
Fixpoint finalize_before_release (t : list event) : bool :=
  match t with
  | [] => true
  | e :: t' =>
      (if release e then forallb (fun x => negb (finalization x)) t' else true)
      && finalize_before_release t'
  end.

(** The driver connection a context holds, if any. *)
Definition held (ctx : _DbCtx.t) : option RawConnection :=
  match _DbCtx.connection ctx with
  | None => None
  | Some lc => _LazyConnection.connection lc
  end.

(** What the body of a [with] statement hands to [__exit__]. *)
Definition exc_of {S A} (r : reply S A) : option exn :=
  match outcome_of r with
  | Return _ => None
  | Raised e => Some e
  end.

(** [n] further calls of [cursor()] on the same lazy connection, whatever each
    of them returns or raises. *)
Fixpoint cursor_again (n : nat) (g : env) (self : _LazyConnection.t)
  : reply _LazyConnection.t unit :=
  match n with
  | O => Reply (Return tt) g self []
  | S n' =>
      match _LazyConnection.cursor g self with
      | Reply _ g1 self1 t1 => after t1 (cursor_again n' g1 self1)
      end
  end.

Definition is_cursor (e : event) : bool :=
  match e with Drv (DCursor _) => true | _ => false end.

(** Calls of commit or rollback that reach the driver. *)
Definition is_driver_finalization (e : event) : bool :=
  is_commit e || is_rollback e.

(** Events other than finalization and release. *)
Definition calm (e : event) : bool := negb (finalization e || release e).


(** The answer of the driver to [c.close()] at tick [n], when the scope owns
    the connection; a scope that does not own it never closes. *)
Definition close_answer (own : bool) (g : env) (n : nat) (c : RawConnection)
  : option exn :=
  if own then driver g n (DClose c) else None.


(** ** Invariants of the thread-local context *)

(** Inside an open transaction scope. *)
Definition nested (ctx : _DbCtx.t) : Prop :=
  _DbCtx.is_init ctx = true /\ 1 <= _DbCtx.transactions ctx.

(** No transaction scope is open. *)
Definition outermost (ctx : _DbCtx.t) : Prop :=
  _DbCtx.is_init ctx = false \/ _DbCtx.transactions ctx = 0.

(** What every state reached from a new [_DbCtx] satisfies. *)
Definition balanced (ctx : _DbCtx.t) : Prop :=
  0 <= _DbCtx.transactions ctx
  /\ (_DbCtx.is_init ctx = false -> _DbCtx.transactions ctx = 0).

(** Exactly one finalizing call, as the specification words it: one commit
    and no rollback after a successful body, one rollback and no commit
    after a failed one. *)
Definition finalized_exactly_once (body_ok : bool) (t : list event) : Prop :=
  if body_ok
  then count is_commit t = 1%nat /\ count is_rollback t = 0%nat
  else count is_commit t = 0%nat /\ count is_rollback t = 1%nat.

(** ** Fixtures *)

Definition test_params : params :=
  {| user := "postgres"; password := "1129"; database := "test";
     host := "127.0.0.1"; port := 5432 |}.

(** A driver on which every call succeeds. *)
Definition driver_ok : nat -> driver_call -> option exn := fun _ _ => None.

(** A driver whose commits fail. *)
Definition driver_commit_fails : nat -> driver_call -> option exn :=
  fun _ d => match d with DCommit _ => Some (DriverError 1) | _ => None end.

(** A driver whose rollbacks fail. *)
Definition driver_rollback_fails : nat -> driver_call -> option exn :=
  fun _ d => match d with DRollback _ => Some (DriverError 2) | _ => None end.

(** A driver whose commits and rollbacks both fail, with different errors. *)
Definition driver_both_fail : nat -> driver_call -> option exn :=
  fun _ d =>
    match d with
    | DCommit _ => Some (DriverError 1)
    | DRollback _ => Some (DriverError 2)
    | _ => None
    end.

(** The module after [create_engine] has run once. *)
Definition env_with (drv : nat -> driver_call -> option exn) : env :=
  {| engine := Some (_Engine.__init__ test_params); ticks := 0%nat;
     driver := drv |}.

(** * Further code of the module *)

(** ** Further readings of traces and programs *)

Definition is_driver_event (e : event) : bool :=
  match e with Drv _ => true | _ => false end.

Definition is_cursor_close (e : event) : bool :=
  match e with Drv (DCursorClose _) => true | _ => false end.

(** The driver calls that end a transaction or a connection: commit,
    rollback and close. *)
Definition is_driver_end (e : event) : bool :=
  is_commit e || is_rollback e || is_close e.

(** What [_DbCtx.cleanup] leaves in the trace when the scope owns the
    connection and driver connection [c] is held. *)
Definition cleanup_trace (own : bool) (c : RawConnection) : list event :=
  if own
  then [Call CtxCleanup; Log INFO "[CONNECTION] [CLOSE] connection <%s>...";
        Drv (DClose c)]
  else [].

(** Every cursor request in the trace goes to connection [c]. *)
Definition cursors_on (c : RawConnection) (t : list event) : Prop :=
  forall c', In (Drv (DCursor c')) t -> c' = c.

(** Does the code ask for a cursor, directly or through [update]? *)
Fixpoint requests_cursor (p : stmt) : bool :=
  match p with
  | Pass | RaiseStmt _ => false
  | CursorStmt | UpdateStmt => true
  | Seq a b => requests_cursor a || requests_cursor b
  | WithConnection body | WithTransaction body => requests_cursor body
  end.

(** ** Values and [class Dict] *)

(** The column values that occur: NULL, integers and text.  (Floating point
    columns are left out.) *)
Inductive value : Type :=
| VNone
| VInt (n : Z)
| VStr (s : string).

(** [class Dict(dict)], as an association list without repeated keys.  The
    methods below are the ones the class defines; [__getitem__] and
    [__setitem__] are those of [dict], with None for KeyError. *)
Module Dict.

Definition t : Type := list (string * value).

Fixpoint __getitem__ (self : t) (key : string) : option value :=
  match self with
  | [] => None
  | (k, v) :: rest => if String.eqb k key then Some v else __getitem__ rest key
  end.

Fixpoint __setitem__ (self : t) (key : string) (v : value) : t :=
  match self with
  | [] => [(key, v)]
  | (k, w) :: rest =>
      if String.eqb k key then (k, v) :: rest
      else (k, w) :: __setitem__ rest key v
  end.

(** [super().__init__(kw)], then [self[k] = v] for every pair of
    [zip(names, values)], which stops at the shorter of the two. *)
Definition __init__ (names : list string) (values : list value) (kw : t) : t :=
  fold_left (fun self kv => __setitem__ self (fst kv) (snd kv))
            (combine names values) kw.

(** On KeyError the handler evaluates [r"..." & key], and [&] between two
    strings raises TypeError before any AttributeError is built. *)
Definition __getattr__ {S} (self : t) (key : string) : M S value :=
  match __getitem__ self key with
  | Some v => ret v
  | None => raise TypeError
  end.

Definition __setattr__ (self : t) (key : string) (v : value) : t :=
  __setitem__ self key v.

Definition keys (self : t) : list string := map fst self.

End Dict.

(** ** The query helpers *)

(** [def MultiColumsError(DBError): pass]: a function, like [DBError]. *)
Definition MultiColumsError (DBError : string) : pyobj := PyNone.

(** Reading the local [names] before it was assigned. *)
Definition UnboundLocalError : exn :=
  StandardError "local variable 'names' referenced before assignment".

(** What the database answers to one query: the column names of
    [cursor.description] (none for None) and the result of
    [cursor.fetchone()], a row or None. *)
Record result_set : Type := {
  description : list string;
  fetchone : outcome (option (list value))
}.

(** What [_select] returns: None, one [Dict], or a list of them. *)
Inductive selected : Type :=
| SelNone
| SelDict (d : Dict.t)
| SelList (l : list Dict.t).

Definition lift {S A} (o : outcome A) : M S A := fun g s => Reply o g s [].

(** Does the driver answer call [d] at tick [n] without raising? *)
Definition answers (g : env) (n : nat) (d : driver_call) : bool :=
  match driver g n d with
  | None => true
  | Some _ => false
  end.

(** Iterating over a column value, as [zip(names, x)] does: text yields its
    characters, anything else is not iterable. *)
Definition iter_value (x : value) : option (list value) :=
  match x with
  | VStr s => Some (map (fun c => VStr (String c "")) (list_ascii_of_string s))
  | _ => None
  end.

(** [names], which is bound only when [cursor.description] is true. *)
Definition read_names {S} (rs : result_set) : M S (list string) :=
  match description rs with
  | [] => raise UnboundLocalError
  | names => ret names
  end.

(** [[Dict(names, x) for x in row]]. *)
Fixpoint dicts_of {S} (rs : result_set) (row : list value)
  : M S (list Dict.t) :=
  match row with
  | [] => ret []
  | x :: row' =>
      names <- read_names rs ;;
      chars <- match iter_value x with
               | Some l => ret l
               | None => raise TypeError
               end ;;
      rest <- dicts_of rs row' ;;
      ret (Dict.__init__ names chars [] :: rest)
  end.

(** What [_select] does with the executed cursor: it reads the column names,
    fetches one row and builds the result. *)
Definition _select_result {S} (rs : result_set) (first : bool)
  : M S selected :=
  if first
  then values <- lift (fetchone rs) ;;
       match values with
       | None | Some [] => ret SelNone
       | Some row =>
           names <- read_names rs ;;
           ret (SelDict (Dict.__init__ names row []))
       end
  else row <- lift (fetchone rs) ;;
       match row with
       | None => raise TypeError
       | Some row => l <- dicts_of rs row ;; ret (SelList l)
       end.

(** [_select], from the point where it has its cursor. *)
Definition _select_rest (rs : result_set) (first : bool) (cursor : nat)
  : M _DbCtx.t selected :=
  try_finally
    (call_driver (DExecute cursor) ;; _select_result rs first)
    (call_driver (DCursorClose cursor) ;; ret tt).

Definition _select_body (rs : result_set) (first : bool)
  : M _DbCtx.t selected :=
  logging_info "SQL: %s, ARGS: %s" ;;
  cursor <- _DbCtx.on_connection _LazyConnection.cursor ;;
  _select_rest rs first cursor.

(** [with mgr: return body]: the function returns what [body] returns, or
    None when [__exit__] swallows an exception of [body]. *)
Definition with_return {S T A} (enter : M S T)
    (exit : T -> option exn -> M S bool) (body : M S A) (none : A)
  : M S A := fun g s =>
  match enter g s with
  | Reply (Raised e) g0 s0 t0 => Reply (Raised e) g0 s0 t0
  | Reply (Return mgr) g0 s0 t0 =>
      match body g0 s0 with
      | Reply o1 g1 s1 t1 =>
          let exc := match o1 with
                     | Return _ => None
                     | Raised e => Some e
                     end in
          match exit mgr exc g1 s1 with
          | Reply o2 g2 s2 t2 =>
              Reply (match o2, o1 with
                     | Raised e, _ => Raised e
                     | Return _, Return a => Return a
                     | Return true, Raised _ => Return none
                     | Return false, Raised e => Raised e
                     end)
                    g2 s2 (t0 ++ t1 ++ t2)
          end
      end
  end.

(** [@with_connection def _select(sql, first, *args)]. *)
Definition _select (rs : result_set) (first : bool) : M _DbCtx.t selected :=
  with_return _Connection.__enter__ _Connection.__exit__
              (_select_body rs first) SelNone.

Definition select_one (rs : result_set) : M _DbCtx.t selected :=
  _select rs true.

Definition select (rs : result_set) : M _DbCtx.t selected :=
  _select rs false.

(** [select_int]: [len(d)] of None is a TypeError, and [d.values()] does not
    exist on a list. *)
Definition select_int (rs : result_set) : M _DbCtx.t value :=
  d <- _select rs true ;;
  n <- match d with
       | SelNone => raise TypeError
       | SelDict d => ret (List.length d)
       | SelList l => ret (List.length l)
       end ;;
  (if Nat.eqb n 1 then ret tt
   else raise_obj (MultiColumsError "Expect only one colum.")) ;;
  match d with
  | SelDict ((_, v) :: _) => ret v
  | _ => raise AttributeError
  end.

(** [_update], from the point where it has its cursor. *)
Definition _update_rest (cursor : nat) : M _DbCtx.t unit :=
  try_finally
    (call_driver (DExecute cursor) ;;
     ctx <- get ;;
     if _DbCtx.transactions ctx =? 0
     then logging_info "auto commit" ;;
          _DbCtx.on_connection _LazyConnection.commit
     else ret tt)
    (call_driver (DCursorClose cursor) ;; ret tt).

(** ** [next_id] *)

(** The decimal digits of [n >= 0], most significant first, in front of
    [acc]. *)
Fixpoint decimal (fuel : nat) (n : Z) (acc : string) : string :=
  match fuel with
  | O => acc
  | S fuel' =>
      let acc' := String (Ascii.ascii_of_nat (48 + Z.to_nat (n mod 10))) acc in
      if n / 10 =? 0 then acc' else decimal fuel' (n / 10) acc'
  end.

Definition str_of_nonneg (n : Z) : string :=
  decimal (S (Z.to_nat n)) n "".

Fixpoint zeros (k : nat) : string :=
  match k with
  | O => ""
  | S k' => "0" ++ zeros k'
  end.

(** ["%015d" % n]: at least 15 characters, zero-filled after the sign. *)
Definition format_015d (n : Z) : string :=
  if n <? 0
  then let s := str_of_nonneg (- n) in
       "-" ++ zeros (14 - String.length s) ++ s
  else let s := str_of_nonneg n in
       zeros (15 - String.length s) ++ s.

(** [next_id], given the integer [int(t * 1000)] and the 32 hexadecimal
    digits of [uuid.uuid4().hex]. *)
Definition next_id (millis : Z) (hex : string) : string :=
  format_015d millis ++ hex ++ "000".

(** ** Relations used in the statements *)

(** What holds between a context that is initialised, the context [s] some
    code leaves and the trace [t] it produces: [s] is initialised, nothing in
    [t] releases the connection, and a driver connection that was held is
    still held, is the only one cursors were asked of, and the factory was
    not called. *)
Definition pinned (ctx s : _DbCtx.t) (t : list event) : Prop :=
  _DbCtx.is_init s = true
  /\ filter release t = []
  /\ forall c, held ctx = Some c ->
       held s = Some c /\ filter is_connect t = [] /\ cursors_on c t.

(** No driver connection is held and the driver was not called. *)
Definition idle (s : _DbCtx.t) (t : list event) : Prop :=
  held s = None /\ filter is_driver_event t = [].

(** Building the result touches neither the driver nor the context. *)
Definition pure {S A} (m : M S A) : Prop :=
  exists o, forall g s, m g s = Reply o g s [].

(** The driver answers the three calls of one query on connection [c]:
    the cursor request, the execute and the closing of the cursor. *)
Definition query_answered (g : env) (c : RawConnection) : Prop :=
  let n := ticks g in
  answers g n (DCursor c) = true
  /\ answers g (S n) (DExecute n) = true
  /\ answers g (S (S n)) (DCursorClose n) = true.

Definition is_text (x : value) : bool :=
  match x with VStr _ => true | _ => false end.

(** The characters of a text value, as [zip] sees them. *)
Definition text_chars (x : value) : list value :=
  match iter_value x with
  | Some l => l
  | None => []
  end.

(** * Lemmas *)

(** ** The combinators, through the projections of a reply *)

Lemma after_eq {S A} (t : list event) (r : reply S A) :
  after t r = Reply (outcome_of r) (env_of r) (self_of r) (t ++ trace_of r).
Proof. destruct r; reflexivity. Qed.

Lemma bind_eq {S A B} (m : M S A) (k : A -> M S B) g s :
  bind m k g s =
  match outcome_of (m g s) with
  | Return a => after (trace_of (m g s)) (k a (env_of (m g s)) (self_of (m g s)))
  | Raised e => Reply (Raised e) (env_of (m g s)) (self_of (m g s))
                      (trace_of (m g s))
  end.
Proof. unfold bind. destruct (m g s) as [[a|e] g1 s1 t1]; reflexivity. Qed.

Lemma with_eq {S T} (enter : M S T) (exit : T -> option exn -> M S bool)
    (body : M S unit) g s mgr :
  outcome_of (enter g s) = Return mgr ->
  let r0 := enter g s in
  let r1 := body (env_of r0) (self_of r0) in
  let r2 := exit mgr (exc_of r1) (env_of r1) (self_of r1) in
  with_ enter exit body g s =
  Reply (match outcome_of r2, exc_of r1 with
         | Raised e, _ => Raised e
         | Return true, _ => Return tt
         | Return false, None => Return tt
         | Return false, Some e => Raised e
         end)
        (env_of r2) (self_of r2)
        (trace_of r0 ++ trace_of r1 ++ trace_of r2).
Proof.
  unfold with_, exc_of. destruct (enter g s) as [o0 g0 s0 t0]. cbn.
  intros ->. destruct (body g0 s0) as [o1 g1 s1 t1]. cbn.
  destruct (exit mgr _ g1 s1) as [o2 g2 s2 t2]. reflexivity.
Qed.

Ltac proj := cbn [outcome_of env_of self_of trace_of] in *.

Ltac unfold_db :=
  unfold _TransactionCtx.__exit__, _TransactionCtx.__enter__,
    _TransactionCtx.commit, _TransactionCtx.rollback,
    _Connection.__enter__, _Connection.__exit__, attribute_ref,
    _DbCtx.cleanup, _DbCtx.init, _DbCtx.cursor, _DbCtx.on_connection,
    _LazyConnection.commit, _LazyConnection.rollback,
    _LazyConnection.cleanup, _LazyConnection.cursor, _Engine_connect,
    try_finally, try_except, bind, after, get, put, ret, raise, emit,
    get_engine, logging_info, logging_warning, call_driver in *.

Ltac driver_step :=
  match goal with
  | |- context [match driver ?g ?t ?d with _ => _ end] =>
      destruct (driver g t d) eqn:?
  | |- context [match engine ?g with _ => _ end] =>
      destruct (engine g) eqn:?
  | |- context [?a =? ?b] => destruct (Z.eqb_spec a b); try lia
  end.

Ltac driver_cases := repeat (driver_step; cbn in *).

(** ** Entering and leaving the scopes *)

Lemma tx_enter_joined g ctx :
  _DbCtx.is_init ctx = true ->
  _TransactionCtx.__enter__ g ctx =
  Reply (Return {| _TransactionCtx.should_close_conn := false |}) g
        (_DbCtx.set_transactions ctx (_DbCtx.transactions ctx + 1))
        [Log INFO (if _DbCtx.transactions ctx + 1 =? 1
                   then "begin transaction..."
                   else "join current transaction...")].
Proof.
  destruct ctx as [[lc|] n]; [|discriminate]. intros _. reflexivity.
Qed.

Lemma tx_enter_fresh g ctx :
  _DbCtx.is_init ctx = false ->
  _TransactionCtx.__enter__ g ctx =
  Reply (Return {| _TransactionCtx.should_close_conn := true |}) g
        {| _DbCtx.connection := Some _LazyConnection.__init__;
           _DbCtx.transactions := 1 |}
        [Call CtxInit; Log INFO "begin transaction..."].
Proof.
  destruct ctx as [[lc|] n]; [discriminate|]. intros _. reflexivity.
Qed.

Lemma tx_exit_inner exc g ctx :
  _DbCtx.transactions ctx <> 1 ->
  _TransactionCtx.__exit__ {| _TransactionCtx.should_close_conn := false |}
    exc g ctx =
  Reply (Return false) g
        (_DbCtx.set_transactions ctx (_DbCtx.transactions ctx - 1)) [].
Proof.
  intros H. destruct ctx as [conn n]. cbn in H.
  unfold_db. cbn. driver_cases. reflexivity.
Qed.

Lemma conn_exit self exc g ctx :
  _Connection.__exit__ self exc g ctx = Reply (Return false) g ctx [].
Proof. destruct self as [[|]]; reflexivity. Qed.

Lemma conn_enter_joined g ctx :
  _DbCtx.is_init ctx = true ->
  _Connection.__enter__ g ctx =
  Reply (Return {| _Connection.should_cleanup := false |}) g ctx [].
Proof.
  destruct ctx as [[lc|] n]; [|discriminate]. intros _. reflexivity.
Qed.

Lemma conn_enter_fresh g ctx :
  _DbCtx.is_init ctx = false ->
  _Connection.__enter__ g ctx =
  Reply (Return {| _Connection.should_cleanup := true |}) g
        {| _DbCtx.connection := Some _LazyConnection.__init__;
           _DbCtx.transactions := 0 |}
        [Call CtxInit].
Proof.
  destruct ctx as [[lc|] n]; [discriminate|]. intros _. reflexivity.
Qed.

Lemma lazy_cursor_quiet g lc :
  forallb quiet (trace_of (_LazyConnection.cursor g lc)) = true.
Proof.
  destruct lc as [[c|]]; unfold_db; cbn; driver_cases; reflexivity.
Qed.

Lemma on_connection_shape {A} (m : M _LazyConnection.t A) g ctx :
  _DbCtx.is_init (self_of (_DbCtx.on_connection m g ctx)) = _DbCtx.is_init ctx
  /\ _DbCtx.transactions (self_of (_DbCtx.on_connection m g ctx))
     = _DbCtx.transactions ctx.
Proof.
  destruct ctx as [[lc|] n]; cbn; [|auto].
  unfold _DbCtx.on_connection. cbn. destruct (m g lc). cbn. auto.
Qed.

Lemma on_connection_trace {A} (m : M _LazyConnection.t A) g ctx :
  trace_of (_DbCtx.on_connection m g ctx) =
  match _DbCtx.connection ctx with
  | None => []
  | Some lc => trace_of (m g lc)
  end.
Proof.
  destruct ctx as [[lc|] n]; [|reflexivity].
  unfold _DbCtx.on_connection. cbn. destruct (m g lc). reflexivity.
Qed.

Lemma update_body_shape g ctx :
  let r := _update_body g ctx in
  _DbCtx.is_init (self_of r) = _DbCtx.is_init ctx
  /\ _DbCtx.transactions (self_of r) = _DbCtx.transactions ctx
  /\ (1 <= _DbCtx.transactions ctx -> forallb quiet (trace_of r) = true).
Proof.
  destruct ctx as [[lc|] n]; [|repeat split; reflexivity].
  pose proof (lazy_cursor_quiet g lc) as Q.
  unfold _update_body, _DbCtx.on_connection, bind, after, logging_info, emit.
  cbn -[_LazyConnection.cursor].
  destruct (_LazyConnection.cursor g lc) as [[cur|e] g1 lc1 t1];
    cbn -[_LazyConnection.cursor] in *;
    [|repeat split; auto].
  destruct lc1 as [[c1|]]; unfold_db; cbn; driver_cases;
    (split; [reflexivity|split; [reflexivity|]]); intros H; try lia;
    rewrite ?forallb_app, ?Q; reflexivity.
Qed.

Lemma tx_exit_depth self exc g ctx :
  _DbCtx.transactions (self_of (_TransactionCtx.__exit__ self exc g ctx))
  = _DbCtx.transactions ctx - 1.
Proof.
  destruct ctx as [[[[c|]]|] n], self as [[|]], exc as [e|];
    unfold_db; cbn; driver_cases; reflexivity.
Qed.

Lemma tx_exit_joined_init exc g ctx :
  _DbCtx.is_init
    (self_of (_TransactionCtx.__exit__
                {| _TransactionCtx.should_close_conn := false |} exc g ctx))
  = _DbCtx.is_init ctx.
Proof.
  destruct ctx as [[[[c|]]|] n], exc as [e|];
    unfold_db; cbn; driver_cases; reflexivity.
Qed.

Lemma exec_nested p : forall g ctx,
  nested ctx ->
  let r := exec p g ctx in
  _DbCtx.is_init (self_of r) = true
  /\ _DbCtx.transactions (self_of r) = _DbCtx.transactions ctx
  /\ forallb quiet (trace_of r) = true.
Proof.
  induction p as [|a IHa b IHb|e| | |body IH|body IH]; intros g ctx N; cbn zeta.
  - destruct N. cbn. auto.
  - cbn [exec]. rewrite bind_eq.
    destruct (IHa g ctx N) as (Ia & Ta & Qa).
    destruct (outcome_of (exec a g ctx)); [|auto].
    assert (N' : nested (self_of (exec a g ctx)))
      by (destruct N; split; [assumption|lia]).
    destruct (IHb (env_of (exec a g ctx)) (self_of (exec a g ctx)) N')
      as (Ib & Tb & Qb).
    rewrite after_eq. proj.
    rewrite forallb_app, Qa, Qb. repeat split; [assumption|lia].
  - destruct N. cbn. auto.
  - destruct N as [Hi Hn]. cbn [exec]. rewrite bind_eq. unfold _DbCtx.cursor.
    destruct (on_connection_shape _LazyConnection.cursor g ctx) as [I T].
    assert (Q : forallb quiet
                  (trace_of (_DbCtx.on_connection _LazyConnection.cursor g ctx))
                = true).
    { rewrite on_connection_trace. destruct (_DbCtx.connection ctx);
        [apply lazy_cursor_quiet|reflexivity]. }
    destruct (outcome_of (_DbCtx.on_connection _LazyConnection.cursor g ctx));
      cbn; rewrite ?app_nil_r; repeat split; congruence.
  - cbn [exec]. destruct N as [Hi Hn].
    rewrite (with_eq _ _ _ g ctx {| _Connection.should_cleanup := false |})
      by (rewrite conn_enter_joined by assumption; reflexivity).
    rewrite conn_enter_joined by assumption. proj.
    rewrite conn_exit. proj. rewrite app_nil_r. cbn [app].
    destruct (update_body_shape g ctx) as (I & T & Q).
    split; [congruence|split; [assumption|auto]].
  - cbn [exec]. destruct N as [Hi Hn].
    rewrite (with_eq _ _ _ g ctx {| _Connection.should_cleanup := false |})
      by (rewrite conn_enter_joined by assumption; reflexivity).
    rewrite conn_enter_joined by assumption. proj.
    rewrite conn_exit. proj. rewrite app_nil_r. cbn [app].
    apply IH. split; assumption.
  - cbn [exec]. destruct N as [Hi Hn].
    rewrite (with_eq _ _ _ g ctx
               {| _TransactionCtx.should_close_conn := false |})
      by (rewrite tx_enter_joined by assumption; reflexivity).
    rewrite tx_enter_joined by assumption. proj.
    assert (N' : nested (_DbCtx.set_transactions ctx
                           (_DbCtx.transactions ctx + 1)))
      by (split; [exact Hi|cbn; lia]).
    destruct (IH g _ N') as (Ib & Tb & Qb).
    cbn [_DbCtx.transactions _DbCtx.set_transactions] in Tb.
    rewrite tx_exit_inner by lia. proj.
    rewrite app_nil_r. split; [exact Ib|split].
    + cbn [_DbCtx.transactions _DbCtx.set_transactions]. lia.
    + cbn [app forallb]. rewrite Qb. reflexivity.
Qed.

Lemma exec_balanced p : forall g ctx,
  balanced ctx ->
  let r := exec p g ctx in
  _DbCtx.transactions (self_of r) = _DbCtx.transactions ctx
  /\ balanced (self_of r).
Proof.
  induction p as [|a IHa b IHb|e| | |body IH|body IH]; intros g ctx B; cbn zeta.
  - cbn. auto.
  - cbn [exec]. rewrite bind_eq.
    destruct (IHa g ctx B) as (Ta & Ba).
    destruct (outcome_of (exec a g ctx)); [|auto].
    destruct (IHb (env_of (exec a g ctx)) (self_of (exec a g ctx)) Ba)
      as (Tb & Bb).
    rewrite after_eq. proj. split; [lia|assumption].
  - cbn. auto.
  - cbn [exec]. rewrite bind_eq. unfold _DbCtx.cursor.
    destruct (on_connection_shape _LazyConnection.cursor g ctx) as [I T].
    destruct B as [B0 B1].
    destruct (outcome_of (_DbCtx.on_connection _LazyConnection.cursor g ctx));
      cbn [self_of ret after]; (split; [assumption|split; [lia|]]);
      rewrite I, T; assumption.
  - cbn [exec]. destruct B as [B0 B1].
    destruct (_DbCtx.is_init ctx) eqn:Hi.
    + rewrite (with_eq _ _ _ g ctx {| _Connection.should_cleanup := false |})
        by (rewrite conn_enter_joined by assumption; reflexivity).
      rewrite conn_enter_joined by assumption. proj.
      rewrite conn_exit. proj.
      destruct (update_body_shape g ctx) as (I & T & _).
      split; [assumption|split; [lia|]]. rewrite I, T, Hi. discriminate.
    + rewrite (with_eq _ _ _ g ctx {| _Connection.should_cleanup := true |})
        by (rewrite conn_enter_fresh by assumption; reflexivity).
      rewrite conn_enter_fresh by assumption. proj.
      rewrite conn_exit. proj.
      destruct (update_body_shape g
                  {| _DbCtx.connection := Some _LazyConnection.__init__;
                     _DbCtx.transactions := 0 |}) as (I & T & _).
      unfold balanced. rewrite (B1 eq_refl), T, I. cbn [_DbCtx.transactions].
      split; [reflexivity|split; [lia|]]. cbn. discriminate.
  - cbn [exec]. destruct B as [B0 B1].
    destruct (_DbCtx.is_init ctx) eqn:Hi.
    + rewrite (with_eq _ _ _ g ctx {| _Connection.should_cleanup := false |})
        by (rewrite conn_enter_joined by assumption; reflexivity).
      rewrite conn_enter_joined by assumption. proj.
      rewrite conn_exit. proj.
      apply IH. split; [assumption|]. rewrite Hi. discriminate.
    + rewrite (with_eq _ _ _ g ctx {| _Connection.should_cleanup := true |})
        by (rewrite conn_enter_fresh by assumption; reflexivity).
      rewrite conn_enter_fresh by assumption. proj.
      rewrite conn_exit. proj.
      rewrite (B1 eq_refl).
      apply (IH g {| _DbCtx.connection := Some _LazyConnection.__init__;
                     _DbCtx.transactions := 0 |}).
      split; cbn; [lia|discriminate].
  - cbn [exec]. destruct B as [B0 B1].
    destruct (_DbCtx.is_init ctx) eqn:Hi.
    + rewrite (with_eq _ _ _ g ctx
                 {| _TransactionCtx.should_close_conn := false |})
        by (rewrite tx_enter_joined by assumption; reflexivity).
      rewrite tx_enter_joined by assumption. proj.
      assert (N : nested (_DbCtx.set_transactions ctx
                            (_DbCtx.transactions ctx + 1)))
        by (split; [exact Hi|cbn; lia]).
      destruct (exec_nested body g _ N) as (Ib & Tb & _).
      cbn [_DbCtx.transactions _DbCtx.set_transactions] in Tb.
      unfold balanced. rewrite !tx_exit_depth. split; [lia|]. split; [lia|].
      rewrite tx_exit_joined_init, Ib. discriminate.
    + rewrite (with_eq _ _ _ g ctx
                 {| _TransactionCtx.should_close_conn := true |})
        by (rewrite tx_enter_fresh by assumption; reflexivity).
      rewrite tx_enter_fresh by assumption. proj.
      assert (N : nested {| _DbCtx.connection := Some _LazyConnection.__init__;
                            _DbCtx.transactions := 1 |})
        by (split; cbn; [reflexivity|lia]).
      destruct (exec_nested body g _ N) as (Ib & Tb & _).
      cbn [_DbCtx.transactions] in Tb.
      unfold balanced. rewrite !tx_exit_depth, Tb, (B1 eq_refl).
      split; [lia|]. split; [lia|]. intros _. lia.
Qed.

(** ** The outermost transaction scope *)

Lemma tx_enter_outcome g ctx :
  outcome_of (_TransactionCtx.__enter__ g ctx)
  = Return {| _TransactionCtx.should_close_conn :=
                negb (_DbCtx.is_init ctx) |}.
Proof. destruct ctx as [[lc|] n]; reflexivity. Qed.

Lemma tx_with_eq body g ctx :
  let r0 := _TransactionCtx.__enter__ g ctx in
  let r1 := exec body (env_of r0) (self_of r0) in
  let r2 := _TransactionCtx.__exit__
              {| _TransactionCtx.should_close_conn :=
                   negb (_DbCtx.is_init ctx) |}
              (exc_of r1) (env_of r1) (self_of r1) in
  exec (WithTransaction body) g ctx =
  Reply (match outcome_of r2, exc_of r1 with
         | Raised e, _ => Raised e
         | Return true, _ => Return tt
         | Return false, None => Return tt
         | Return false, Some e => Raised e
         end)
        (env_of r2) (self_of r2)
        (trace_of r0 ++ trace_of r1 ++ trace_of r2).
Proof.
  cbn [exec]. apply with_eq. apply tx_enter_outcome.
Qed.

Lemma quiet_calm t : forallb quiet t = true -> forallb calm t = true.
Proof.
  induction t as [|e t IH]; cbn; [reflexivity|].
  intros H. apply andb_true_iff in H as [He Ht].
  rewrite (IH Ht), andb_true_r. unfold quiet in He. unfold calm.
  destruct (finalization e || release e); [discriminate|reflexivity].
Qed.

Lemma calm_filter_nil (f : event -> bool) (t : list event) :
  (forall e, f e = true -> calm e = false) ->
  forallb calm t = true -> filter f t = [].
Proof.
  intros Hf. induction t as [|e t IH]; cbn; [reflexivity|].
  intros H. apply andb_true_iff in H as [He Ht].
  destruct (f e) eqn:E.
  - apply Hf in E. congruence.
  - auto.
Qed.

Lemma calm_finalize_before_release a b :
  forallb calm a = true ->
  finalize_before_release (a ++ b) = finalize_before_release b.
Proof.
  induction a as [|e a IH]; cbn; [reflexivity|].
  intros H. apply andb_true_iff in H as [He Ha].
  rewrite (IH Ha). unfold calm in He.
  destruct (release e); [|reflexivity].
  rewrite orb_true_r in He. discriminate.
Qed.

Lemma tx_enter_outermost g ctx :
  outermost ctx ->
  let r0 := _TransactionCtx.__enter__ g ctx in
  env_of r0 = g
  /\ nested (self_of r0)
  /\ _DbCtx.transactions (self_of r0) = 1
  /\ forallb calm (trace_of r0) = true.
Proof.
  intros O. destruct (_DbCtx.is_init ctx) eqn:Hi.
  - destruct O as [O|O]; [congruence|].
    cbn zeta. rewrite tx_enter_joined by assumption.
    unfold nested. cbn. rewrite O. repeat split; try reflexivity; try lia.
    exact Hi.
  - cbn zeta. rewrite tx_enter_fresh by assumption.
    unfold nested. cbn. repeat split; lia.
Qed.

(** The state in which the body of an outermost transaction scope ends: the
    context is still initialised, the depth is 1 again, and nothing inside
    the body finalized the transaction or released the connection. *)
Lemma tx_body_end body g ctx :
  outermost ctx ->
  let r0 := _TransactionCtx.__enter__ g ctx in
  let r1 := exec body (env_of r0) (self_of r0) in
  forallb quiet (trace_of r1) = true
  /\ exists lc,
       self_of r1
       = {| _DbCtx.connection := Some lc; _DbCtx.transactions := 1 |}.
Proof.
  intros O. cbn zeta.
  destruct (tx_enter_outermost g ctx O) as (E & N & T & _).
  destruct (exec_nested body (env_of (_TransactionCtx.__enter__ g ctx))
              (self_of (_TransactionCtx.__enter__ g ctx)) N)
    as (Ib & Tb & Qb).
  rewrite T in Tb. split; [assumption|].
  destruct (self_of (exec body _ _)) as [[lc|] n]; [|discriminate].
  cbn in Tb. subst n. eauto.
Qed.

Ltac calm_filter :=
  match goal with
  | |- forall e, _ = true -> calm e = false =>
      intros [[]| |[]]; cbn; congruence
  end.

(** Splits the trace of an outermost [with transaction():] into the part of
    [__exit__], for a filter that selects finalization or release events. *)
Lemma tx_with_filter (f : event -> bool) body g ctx :
  (forall e, f e = true -> calm e = false) ->
  outermost ctx ->
  let r0 := _TransactionCtx.__enter__ g ctx in
  let r1 := exec body (env_of r0) (self_of r0) in
  let r2 := _TransactionCtx.__exit__
              {| _TransactionCtx.should_close_conn :=
                   negb (_DbCtx.is_init ctx) |}
              (exc_of r1) (env_of r1) (self_of r1) in
  filter f (trace_of (exec (WithTransaction body) g ctx))
  = filter f (trace_of r2).
Proof.
  intros Hf O. cbn zeta. rewrite tx_with_eq. proj.
  destruct (tx_enter_outermost g ctx O) as (_ & _ & _ & Q0).
  destruct (tx_body_end body g ctx O) as (Q1 & _).
  rewrite !filter_app, (calm_filter_nil f _ Hf Q0),
    (calm_filter_nil f _ Hf (quiet_calm _ Q1)).
  reflexivity.
Qed.

Lemma tx_exit_outer_commit self exc g lc :
  filter is_commit
    (trace_of (_TransactionCtx.__exit__ self exc g
                 {| _DbCtx.connection := Some lc; _DbCtx.transactions := 1 |}))
  = match _LazyConnection.connection lc, exc with
    | Some c, None => [Drv (DCommit c)]
    | _, _ => []
    end.
Proof.
  destruct lc as [[c|]], self as [[|]], exc as [e|];
    unfold_db; cbn; driver_cases; reflexivity.
Qed.

Lemma tx_exit_outer_rollback self exc g lc :
  filter is_rollback
    (trace_of (_TransactionCtx.__exit__ self exc g
                 {| _DbCtx.connection := Some lc; _DbCtx.transactions := 1 |}))
  = match _LazyConnection.connection lc, exc with
    | Some c, None =>
        match driver g (ticks g) (DCommit c) with
        | Some _ => [Drv (DRollback c)]
        | None => []
        end
    | Some c, Some _ => [Drv (DRollback c)]
    | None, _ => []
    end.
Proof.
  destruct lc as [[c|]], self as [[|]], exc as [e|];
    unfold_db; cbn; driver_cases; reflexivity.
Qed.

(** What the outermost exit raises or returns when a driver connection is
    held: the error of close if close is called and fails; otherwise the
    error of the rollback if a rollback is called and fails; otherwise nothing
    (the method returns None, a false value). *)
Lemma tx_exit_outer_outcome own exc g c :
  outcome_of
    (_TransactionCtx.__exit__ {| _TransactionCtx.should_close_conn := own |}
       exc g
       {| _DbCtx.connection :=
            Some {| _LazyConnection.connection := Some c |};
          _DbCtx.transactions := 1 |})
  = match exc with
    | None =>
        match driver g (ticks g) (DCommit c) with
        | None =>
            match close_answer own g (S (ticks g)) c with
            | Some e3 => Raised e3
            | None => Return false
            end
        | Some _ =>
            match close_answer own g (S (S (ticks g))) c,
                  driver g (S (ticks g)) (DRollback c) with
            | Some e3, _ => Raised e3
            | None, Some e2 => Raised e2
            | None, None => Return false
            end
        end
    | Some _ =>
        match close_answer own g (S (ticks g)) c,
              driver g (ticks g) (DRollback c) with
        | Some e3, _ => Raised e3
        | None, Some e2 => Raised e2
        | None, None => Return false
        end
    end.
Proof.
  destruct own, exc as [e|]; unfold close_answer;
    unfold_db; cbn; driver_cases; reflexivity.
Qed.

Lemma tx_exit_outer_release exc g lc :
  let r := _TransactionCtx.__exit__
             {| _TransactionCtx.should_close_conn := true |} exc g
             {| _DbCtx.connection := Some lc; _DbCtx.transactions := 1 |} in
  count is_finalize_call (trace_of r) = 1%nat
  /\ count is_cleanup_call (trace_of r) = 1%nat
  /\ finalize_before_release (trace_of r) = true
  /\ filter is_close (trace_of r)
     = match _LazyConnection.connection lc with
       | Some c => [Drv (DClose c)]
       | None => []
       end.
Proof.
  destruct lc as [[c|]], exc as [e|];
    unfold_db; cbn; driver_cases; repeat split; reflexivity.
Qed.

Lemma tx_with_outcome body g ctx :
  let r0 := _TransactionCtx.__enter__ g ctx in
  let r1 := exec body (env_of r0) (self_of r0) in
  let r2 := _TransactionCtx.__exit__
              {| _TransactionCtx.should_close_conn :=
                   negb (_DbCtx.is_init ctx) |}
              (exc_of r1) (env_of r1) (self_of r1) in
  outcome_of (exec (WithTransaction body) g ctx)
  = match outcome_of r2, exc_of r1 with
    | Raised e, _ => Raised e
    | Return true, _ => Return tt
    | Return false, None => Return tt
    | Return false, Some e => Raised e
    end.
Proof. cbn zeta. rewrite tx_with_eq. reflexivity. Qed.

Lemma held_body_end body g ctx c :
  outermost ctx ->
  let r0 := _TransactionCtx.__enter__ g ctx in
  let r1 := exec body (env_of r0) (self_of r0) in
  held (self_of r1) = Some c ->
  self_of r1
  = {| _DbCtx.connection := Some {| _LazyConnection.connection := Some c |};
       _DbCtx.transactions := 1 |}.
Proof.
  intros O. cbn zeta. destruct (tx_body_end body g ctx O) as (_ & lc & S1).
  rewrite S1. unfold held. cbn. destruct lc as [raw]. cbn.
  intros ->. reflexivity.
Qed.

Lemma tx_exit_outer_finalization self exc g c :
  filter is_driver_finalization
    (trace_of (_TransactionCtx.__exit__ self exc g
                 {| _DbCtx.connection :=
                      Some {| _LazyConnection.connection := Some c |};
                    _DbCtx.transactions := 1 |}))
  = match exc with
    | None =>
        match driver g (ticks g) (DCommit c) with
        | Some _ => [Drv (DCommit c); Drv (DRollback c)]
        | None => [Drv (DCommit c)]
        end
    | Some _ => [Drv (DRollback c)]
    end.
Proof.
  destruct self as [[|]], exc as [e|];
    unfold_db; cbn; driver_cases; reflexivity.
Qed.

(** The whole trace of the outermost exit on a held connection. *)
Lemma tx_exit_outer_trace own exc g c :
  trace_of
    (_TransactionCtx.__exit__ {| _TransactionCtx.should_close_conn := own |}
       exc g
       {| _DbCtx.connection :=
            Some {| _LazyConnection.connection := Some c |};
          _DbCtx.transactions := 1 |})
  = ((match exc with
      | None =>
          [Call TxCommit; Log INFO "commit transation..."; Drv (DCommit c)]
          ++ match driver g (ticks g) (DCommit c) with
             | None => [Log INFO "commit ok."]
             | Some _ =>
                 [Log WARNING "commit failed. try rollback...";
                  Drv (DRollback c)]
                 ++ match driver g (S (ticks g)) (DRollback c) with
                    | None => [Log WARNING "roll"]
                    | Some _ => []
                    end
             end
      | Some _ =>
          [Call TxRollback; Log WARNING "rollback transaction...";
           Drv (DRollback c)]
          ++ match driver g (ticks g) (DRollback c) with
             | None => [Log INFO "rollback ok."]
             | Some _ => []
             end
      end) ++ cleanup_trace own c)%list.
Proof.
  destruct own, exc as [e|]; unfold cleanup_trace;
    unfold_db; cbn; driver_cases; reflexivity.
Qed.

(** The driver calls that end the transaction and the connection, in an
    exit that owns the connection. *)
Lemma tx_exit_outer_end exc g lc :
  filter is_driver_end
    (trace_of (_TransactionCtx.__exit__
                 {| _TransactionCtx.should_close_conn := true |} exc g
                 {| _DbCtx.connection := Some lc; _DbCtx.transactions := 1 |}))
  = match _LazyConnection.connection lc with
    | None => []
    | Some c =>
        (match exc with
         | None =>
             Drv (DCommit c)
             :: match driver g (ticks g) (DCommit c) with
                | None => []
                | Some _ => [Drv (DRollback c)]
                end
         | Some _ => [Drv (DRollback c)]
         end ++ [Drv (DClose c)])%list
    end.
Proof.
  destruct lc as [[c|]], exc as [e|];
    unfold_db; cbn; driver_cases; reflexivity.
Qed.

(** ** Repeated cursor requests *)

Lemma lazy_cursor_held g c :
  _LazyConnection.cursor g {| _LazyConnection.connection := Some c |}
  = Reply (match driver g (ticks g) (DCursor c) with
           | None => Return (ticks g)
           | Some e => Raised e
           end)
          (tick g) {| _LazyConnection.connection := Some c |}
          [Drv (DCursor c)].
Proof. reflexivity. Qed.

Lemma cursor_again_held n : forall g c,
  let r := cursor_again n g {| _LazyConnection.connection := Some c |} in
  self_of r = {| _LazyConnection.connection := Some c |}
  /\ trace_of r = repeat (Drv (DCursor c)) n.
Proof.
  induction n as [|n IH]; intros g c; cbn zeta; [split; reflexivity|].
  cbn [cursor_again]. rewrite lazy_cursor_held, after_eq. proj.
  destruct (IH (tick g) c) as [I T]. rewrite I, T. split; reflexivity.
Qed.

Lemma filter_repeat_none (f : event -> bool) (e : event) n :
  f e = false -> filter f (repeat e n) = [].
Proof.
  intros H. induction n as [|n IH]; cbn; [reflexivity|]. now rewrite H.
Qed.

(** * The properties of the specification *)

(** ** The connection scope *)

(** C1, evaluated on [with connection(): _db_ctx.cursor()] run on a new
    context.  The scope initialises the context and the cursor request opens
    driver connection 0; on exit the scope evaluates the attribute
    [_db_ctx.cleanup] without calling it, so there is no cleanup, the driver
    connection is never closed, and the context still holds it. *)
Lemma connection_scope_leaves_connection_open :
  let r := exec (WithConnection CursorStmt) (env_with driver_ok)
             _DbCtx.__init__ in
  outcome_of r = Return tt
  /\ count is_init_call (trace_of r) = 1%nat
  /\ count is_cleanup_call (trace_of r) = 0%nat
  /\ count is_close (trace_of r) = 0%nat
  /\ held (self_of r) = Some 0%nat.
Proof. cbn zeta. repeat split. Qed.

(** ** Nested transaction scopes *)

(** C2, amended.  Take [with transaction(): body] entered while no transaction
    scope is open, [body] being any code, with any nesting of scopes inside.
    Nothing inside [body], the entries and exits of all inner scopes
    included, commits, rolls back or cleans up.  Over the whole statement
    the driver connection held when the outermost scope exits receives: after
    a body that did not raise, one commit, and after it one rollback exactly
    when that commit raised; after a body that raised, one rollback and no
    commit.  When no driver connection is held, no commit or rollback reaches
    the driver. *)
Theorem nested_transactions_finalize body g ctx :
  outermost ctx ->
  let r0 := _TransactionCtx.__enter__ g ctx in
  let r1 := exec body (env_of r0) (self_of r0) in
  let r := exec (WithTransaction body) g ctx in
  forallb quiet (trace_of r1) = true
  /\ filter is_commit (trace_of r)
     = match held (self_of r1), exc_of r1 with
       | Some c, None => [Drv (DCommit c)]
       | _, _ => []
       end
  /\ filter is_rollback (trace_of r)
     = match held (self_of r1), exc_of r1 with
       | Some c, None =>
           match driver (env_of r1) (ticks (env_of r1)) (DCommit c) with
           | Some _ => [Drv (DRollback c)]
           | None => []
           end
       | Some c, Some _ => [Drv (DRollback c)]
       | None, _ => []
       end.
Proof.
  intros O. cbn zeta.
  destruct (tx_body_end body g ctx O) as (Q1 & lc & S1).
  split; [exact Q1|].
  rewrite !tx_with_filter by (assumption || calm_filter).
  unfold held. rewrite S1. cbn [_DbCtx.connection].
  split; [apply tx_exit_outer_commit|apply tx_exit_outer_rollback].
Qed.

(** The scenario of the specification: A opens the connection, B joins and
    exits without a commit, A commits once. *)
Lemma nested_transactions_finalize_witness :
  let body := Seq CursorStmt (WithTransaction UpdateStmt) in
  let r := exec (WithTransaction body) (env_with driver_ok) _DbCtx.__init__ in
  outermost _DbCtx.__init__
  /\ filter is_commit (trace_of r) = [Drv (DCommit 0%nat)]
  /\ filter is_rollback (trace_of r) = [].
Proof.
  cbn zeta. split; [left; reflexivity|].
  exact (proj2 (nested_transactions_finalize
                  (Seq CursorStmt (WithTransaction UpdateStmt))
                  (env_with driver_ok) _DbCtx.__init__
                  (or_introl eq_refl))).
Defined.

(** C2 as stated fails: the body succeeds, the driver's commit raises, and
    the connection receives one commit and one rollback. *)
Lemma nested_transactions_commit_and_rollback :
  let body := Seq CursorStmt (WithTransaction UpdateStmt) in
  let g := env_with driver_commit_fails in
  let r0 := _TransactionCtx.__enter__ g _DbCtx.__init__ in
  let r := exec (WithTransaction body) g _DbCtx.__init__ in
  exc_of (exec body (env_of r0) (self_of r0)) = None
  /\ count is_commit (trace_of r) = 1%nat
  /\ count is_rollback (trace_of r) = 1%nat
  /\ ~ finalized_exactly_once true (trace_of r).
Proof.
  cbn zeta. split; [reflexivity|split; [reflexivity|split; [reflexivity|]]].
  unfold finalized_exactly_once. vm_compute. intros [_ H]. discriminate H.
Qed.

(** C3, amended.  When the body of the outermost transaction scope did not
    raise and the commit on the held driver connection raises, the driver
    calls that finalize are that commit followed by one rollback on the same
    connection.  A failure of this rollback is not caught: the statement
    raises it, unless the scope owns the connection and the close that
    follows raises, in which case the statement raises the error of the
    close.  Nor is it logged: the exit writes the record that announces the
    commit, the record that the commit failed, then calls rollback, and when
    the rollback raises the only events after that call are those of cleanup
    in a scope that owns the connection. *)
Theorem failed_commit_rolls_back body g ctx c e :
  outermost ctx ->
  let r0 := _TransactionCtx.__enter__ g ctx in
  let r1 := exec body (env_of r0) (self_of r0) in
  let r2 := _TransactionCtx.__exit__
              {| _TransactionCtx.should_close_conn :=
                   negb (_DbCtx.is_init ctx) |}
              (exc_of r1) (env_of r1) (self_of r1) in
  let r := exec (WithTransaction body) g ctx in
  exc_of r1 = None ->
  held (self_of r1) = Some c ->
  driver (env_of r1) (ticks (env_of r1)) (DCommit c) = Some e ->
  filter is_driver_finalization (trace_of r)
  = [Drv (DCommit c); Drv (DRollback c)]
  /\ (forall e2,
       driver (env_of r1) (S (ticks (env_of r1))) (DRollback c) = Some e2 ->
       outcome_of r
       = match close_answer (negb (_DbCtx.is_init ctx)) (env_of r1)
                 (S (S (ticks (env_of r1)))) c with
         | Some e3 => Raised e3
         | None => Raised e2
         end)
  /\ trace_of r = (trace_of r0 ++ trace_of r1 ++ trace_of r2)%list
  /\ trace_of r2
     = ([Call TxCommit; Log INFO "commit transation..."; Drv (DCommit c);
         Log WARNING "commit failed. try rollback..."; Drv (DRollback c)]
        ++ match driver (env_of r1) (S (ticks (env_of r1))) (DRollback c) with
           | None => [Log WARNING "roll"]
           | Some _ => []
           end
        ++ cleanup_trace (negb (_DbCtx.is_init ctx)) c)%list.
Proof.
  intros O. cbn zeta. intros X H C.
  pose proof (held_body_end body g ctx c O H) as S1. cbn zeta in S1.
  split; [|split; [|split]].
  - rewrite tx_with_filter
      by (assumption || (intros [[]| |[]]; cbn; congruence)).
    rewrite X, S1, tx_exit_outer_finalization, C. reflexivity.
  - intros e2 R. rewrite tx_with_outcome, X, S1, tx_exit_outer_outcome, C, R.
    destruct (close_answer _ _ _ _); reflexivity.
  - rewrite tx_with_eq. reflexivity.
  - rewrite X, S1, tx_exit_outer_trace, C. reflexivity.
Qed.

Lemma failed_commit_rolls_back_witness :
  let g := env_with driver_both_fail in
  let r0 := _TransactionCtx.__enter__ g _DbCtx.__init__ in
  let r1 := exec CursorStmt (env_of r0) (self_of r0) in
  let r2 := _TransactionCtx.__exit__
              {| _TransactionCtx.should_close_conn := true |}
              (exc_of r1) (env_of r1) (self_of r1) in
  let r := exec (WithTransaction CursorStmt) g _DbCtx.__init__ in
  outermost _DbCtx.__init__
  /\ exc_of r1 = None
  /\ held (self_of r1) = Some 0%nat
  /\ driver (env_of r1) (ticks (env_of r1)) (DCommit 0%nat)
     = Some (DriverError 1)
  /\ driver (env_of r1) (S (ticks (env_of r1))) (DRollback 0%nat)
     = Some (DriverError 2)
  /\ filter is_driver_finalization (trace_of r)
     = [Drv (DCommit 0%nat); Drv (DRollback 0%nat)]
  /\ outcome_of r = Raised (DriverError 2)
  /\ trace_of r2
     = [Call TxCommit; Log INFO "commit transation..."; Drv (DCommit 0%nat);
        Log WARNING "commit failed. try rollback..."; Drv (DRollback 0%nat);
        Call CtxCleanup; Log INFO "[CONNECTION] [CLOSE] connection <%s>...";
        Drv (DClose 0%nat)].
Proof.
  cbn zeta. split; [left; reflexivity|].
  split; [reflexivity|split; [reflexivity|]].
  split; [reflexivity|split; [reflexivity|]].
  pose proof (failed_commit_rolls_back CursorStmt
                (env_with driver_both_fail) _DbCtx.__init__ 0%nat
                (DriverError 1) (or_introl eq_refl) eq_refl eq_refl eq_refl)
    as (F & R & _ & T).
  split; [exact F|split; [exact (R (DriverError 2) eq_refl)|exact T]].
Defined.

(** C3 as stated fails: the commit raises [DriverError 1], the recovery
    rollback raises [DriverError 2], and the caller sees the second, not the
    commit failure; and the trace of the statement has no log record between
    the rollback call and the cleanup. *)
Lemma rollback_failure_replaces_commit_failure :
  let g := env_with driver_both_fail in
  let r0 := _TransactionCtx.__enter__ g _DbCtx.__init__ in
  let r1 := exec CursorStmt (env_of r0) (self_of r0) in
  let r := exec (WithTransaction CursorStmt) g _DbCtx.__init__ in
  exc_of r1 = None
  /\ driver (env_of r1) (ticks (env_of r1)) (DCommit 0%nat)
     = Some (DriverError 1)
  /\ outcome_of r = Raised (DriverError 2)
  /\ outcome_of r <> Raised (DriverError 1)
  /\ trace_of r
     = [Call CtxInit; Log INFO "begin transaction..."; Drv DConnect;
        Log INFO "[CONNECTION] [OPEN] connection <%s>..."; Drv (DCursor 0%nat);
        Call TxCommit; Log INFO "commit transation..."; Drv (DCommit 0%nat);
        Log WARNING "commit failed. try rollback..."; Drv (DRollback 0%nat);
        Call CtxCleanup; Log INFO "[CONNECTION] [CLOSE] connection <%s>...";
        Drv (DClose 0%nat)].
Proof.
  cbn zeta. split; [reflexivity|split; [reflexivity|split; [reflexivity|]]].
  split; [vm_compute; discriminate|reflexivity].
Qed.

(** C4, amended.  When the body of the outermost transaction scope raises
    while a driver connection is held, that connection receives one rollback
    and no commit.  The statement then raises the original exception if
    neither the rollback nor the close raises; a failure of the rollback is
    not caught and is raised in place of the original exception; and when the
    scope owns the connection and the close raises, the error of the close is
    raised instead of either.  A failure of the rollback is not logged
    either: the exit writes the record that announces the rollback, calls
    rollback, writes 'rollback ok.' only when the call returned, and after a
    call that raised the only events are those of cleanup in a scope that
    owns the connection. *)
Theorem failed_body_rolls_back body g ctx c e :
  outermost ctx ->
  let r0 := _TransactionCtx.__enter__ g ctx in
  let r1 := exec body (env_of r0) (self_of r0) in
  let r2 := _TransactionCtx.__exit__
              {| _TransactionCtx.should_close_conn :=
                   negb (_DbCtx.is_init ctx) |}
              (exc_of r1) (env_of r1) (self_of r1) in
  let r := exec (WithTransaction body) g ctx in
  exc_of r1 = Some e ->
  held (self_of r1) = Some c ->
  filter is_commit (trace_of r) = []
  /\ filter is_rollback (trace_of r) = [Drv (DRollback c)]
  /\ outcome_of r
     = match close_answer (negb (_DbCtx.is_init ctx)) (env_of r1)
               (S (ticks (env_of r1))) c,
             driver (env_of r1) (ticks (env_of r1)) (DRollback c) with
       | Some e3, _ => Raised e3
       | None, Some e2 => Raised e2
       | None, None => Raised e
       end
  /\ trace_of r = (trace_of r0 ++ trace_of r1 ++ trace_of r2)%list
  /\ trace_of r2
     = ([Call TxRollback; Log WARNING "rollback transaction...";
         Drv (DRollback c)]
        ++ match driver (env_of r1) (ticks (env_of r1)) (DRollback c) with
           | None => [Log INFO "rollback ok."]
           | Some _ => []
           end
        ++ cleanup_trace (negb (_DbCtx.is_init ctx)) c)%list.
Proof.
  intros O. cbn zeta. intros X H.
  pose proof (held_body_end body g ctx c O H) as S1. cbn zeta in S1.
  rewrite !tx_with_filter by (assumption || calm_filter).
  rewrite tx_with_outcome, tx_with_eq, X, S1, tx_exit_outer_commit,
    tx_exit_outer_rollback, tx_exit_outer_outcome, tx_exit_outer_trace.
  cbn [_LazyConnection.connection].
  split; [reflexivity|split; [reflexivity|split; [|split; reflexivity]]].
  destruct (close_answer _ _ _ _); [reflexivity|].
  destruct (driver _ _ (DRollback c)); reflexivity.
Qed.

(** The scenario of the specification: the body raises, one rollback, no
    commit, the original error at the call site. *)
Lemma failed_body_rolls_back_witness :
  let oops := StandardError "will cause rollback..." in
  let body := Seq CursorStmt (RaiseStmt oops) in
  let g := env_with driver_ok in
  let r0 := _TransactionCtx.__enter__ g _DbCtx.__init__ in
  let r1 := exec body (env_of r0) (self_of r0) in
  let r := exec (WithTransaction body) g _DbCtx.__init__ in
  outermost _DbCtx.__init__
  /\ exc_of r1 = Some oops
  /\ held (self_of r1) = Some 0%nat
  /\ filter is_commit (trace_of r) = []
  /\ filter is_rollback (trace_of r) = [Drv (DRollback 0%nat)]
  /\ outcome_of r = Raised oops.
Proof.
  cbn zeta. split; [left; reflexivity|].
  split; [reflexivity|split; [reflexivity|]].
  pose proof (failed_body_rolls_back
                (Seq CursorStmt
                     (RaiseStmt (StandardError "will cause rollback...")))
                (env_with driver_ok) _DbCtx.__init__ 0%nat
                (StandardError "will cause rollback...")
                (or_introl eq_refl) eq_refl eq_refl) as (C & R & Out & _).
  split; [exact C|split; [exact R|exact Out]].
Defined.

(** C4 as stated fails: the body raises [StandardError], the rollback raises
    [DriverError 2], and the caller sees the error of the rollback; the trace
    of the statement has no log record between the rollback call and the
    cleanup. *)
Lemma rollback_failure_replaces_original :
  let oops := StandardError "will cause rollback..." in
  let body := Seq CursorStmt (RaiseStmt oops) in
  let g := env_with driver_rollback_fails in
  let r0 := _TransactionCtx.__enter__ g _DbCtx.__init__ in
  let r := exec (WithTransaction body) g _DbCtx.__init__ in
  exc_of (exec body (env_of r0) (self_of r0)) = Some oops
  /\ outcome_of r = Raised (DriverError 2)
  /\ outcome_of r <> Raised oops
  /\ trace_of r
     = [Call CtxInit; Log INFO "begin transaction..."; Drv DConnect;
        Log INFO "[CONNECTION] [OPEN] connection <%s>..."; Drv (DCursor 0%nat);
        Call TxRollback; Log WARNING "rollback transaction...";
        Drv (DRollback 0%nat);
        Call CtxCleanup; Log INFO "[CONNECTION] [CLOSE] connection <%s>...";
        Drv (DClose 0%nat)].
Proof.
  cbn zeta. split; [reflexivity|split; [reflexivity|]].
  split; [vm_compute; discriminate|reflexivity].
Qed.

(** ** The lazy connection *)

(** C5.  On a lazy connection that holds no driver connection, with the
    engine set and a factory that answers, [cursor()] invokes the factory
    once, stores the connection it returns and asks that connection for a
    cursor; any number [n] of further [cursor()] calls, whatever each
    returns or raises, keep the same stored connection, never invoke the
    factory, and each ask that connection for a cursor. *)
Theorem lazy_cursor_connects_once g self eng n :
  _LazyConnection.connection self = None ->
  engine g = Some eng ->
  driver g (ticks g) DConnect = None ->
  let r := _LazyConnection.cursor g self in
  let c := ticks g in
  let r' := cursor_again n (env_of r) (self_of r) in
  _LazyConnection.connection (self_of r) = Some c
  /\ filter is_connect (trace_of r) = [Drv DConnect]
  /\ filter is_cursor (trace_of r) = [Drv (DCursor c)]
  /\ _LazyConnection.connection (self_of r') = Some c
  /\ filter is_connect (trace_of r') = []
  /\ trace_of r' = repeat (Drv (DCursor c)) n.
Proof.
  intros N E D. cbn zeta. destruct self as [raw]. cbn in N. subst raw.
  assert (R : _LazyConnection.cursor g {| _LazyConnection.connection := None |}
              = Reply (match driver (tick g) (ticks (tick g))
                               (DCursor (ticks g)) with
                       | None => Return (ticks (tick g))
                       | Some e => Raised e
                       end)
                      (tick (tick g))
                      {| _LazyConnection.connection := Some (ticks g) |}
                      [Drv DConnect;
                       Log INFO "[CONNECTION] [OPEN] connection <%s>...";
                       Drv (DCursor (ticks g))]).
  { unfold_db. cbn. rewrite E. cbn. rewrite D. reflexivity. }
  rewrite R. proj.
  destruct (cursor_again_held n (tick (tick g)) (ticks g)) as [I T].
  split; [reflexivity|split; [reflexivity|split; [reflexivity|]]].
  split; [exact (f_equal _LazyConnection.connection I)|].
  split; [|exact T].
  etransitivity; [exact (f_equal (filter is_connect) T)|].
  apply filter_repeat_none. reflexivity.
Qed.

Lemma lazy_cursor_connects_once_witness :
  let g := env_with driver_ok in
  let r := _LazyConnection.cursor g _LazyConnection.__init__ in
  let r' := cursor_again 3 (env_of r) (self_of r) in
  _LazyConnection.connection _LazyConnection.__init__ = None
  /\ engine g = Some (_Engine.__init__ test_params)
  /\ driver g (ticks g) DConnect = None
  /\ filter is_connect (trace_of r) = [Drv DConnect]
  /\ filter is_connect (trace_of r') = []
  /\ _LazyConnection.connection (self_of r') = Some 0%nat.
Proof.
  cbn zeta. split; [reflexivity|split; [reflexivity|split; [reflexivity|]]].
  pose proof (lazy_cursor_connects_once (env_with driver_ok)
                _LazyConnection.__init__ (_Engine.__init__ test_params) 3
                eq_refl eq_refl eq_refl) as (_ & F & _ & S' & F' & _).
  split; [exact F|split; [exact F'|exact S']].
Defined.

(** C6.  [cleanup()] on a lazy connection resets the stored connection to
    None and calls close once on the driver connection that was held, if one
    was; this holds whether or not the close raises.  A second [cleanup()]
    returns normally, changes nothing and calls nothing. *)
Theorem lazy_cleanup_idempotent g self :
  let r1 := _LazyConnection.cleanup g self in
  let r2 := _LazyConnection.cleanup (env_of r1) (self_of r1) in
  _LazyConnection.connection (self_of r1) = None
  /\ filter is_close (trace_of r1)
     = match _LazyConnection.connection self with
       | Some c => [Drv (DClose c)]
       | None => []
       end
  /\ r2 = Reply (Return tt) (env_of r1) (self_of r1) [].
Proof.
  destruct self as [[c|]]; unfold_db; cbn; driver_cases;
    repeat split; reflexivity.
Qed.

(** ** The context and the engine *)

(** C7, amended.  [_DbCtx.init()] has no guard: on any context, initialised
    or not, it returns normally, installs a new lazy connection without a
    driver connection and sets the depth to 0.  The check is made by the
    callers: entering either scope on an initialised context does not call
    it. *)
Theorem ctx_init_has_no_guard g ctx :
  _DbCtx.init g ctx
  = Reply (Return tt) g
          {| _DbCtx.connection := Some _LazyConnection.__init__;
             _DbCtx.transactions := 0 |}
          [Call CtxInit]
  /\ (_DbCtx.is_init ctx = true ->
      filter is_init_call (trace_of (_Connection.__enter__ g ctx)) = []
      /\ filter is_init_call (trace_of (_TransactionCtx.__enter__ g ctx)) = []).
Proof.
  split; [reflexivity|]. intros Hi.
  rewrite conn_enter_joined, tx_enter_joined by assumption.
  split; reflexivity.
Qed.

Lemma ctx_init_has_no_guard_witness :
  let ctx := {| _DbCtx.connection :=
                  Some {| _LazyConnection.connection := Some 7%nat |};
                _DbCtx.transactions := 2 |} in
  _DbCtx.is_init ctx = true
  /\ filter is_init_call
       (trace_of (_Connection.__enter__ (env_with driver_ok) ctx)) = []
  /\ filter is_init_call
       (trace_of (_TransactionCtx.__enter__ (env_with driver_ok) ctx)) = [].
Proof.
  cbn zeta. split; [reflexivity|].
  exact (proj2 (ctx_init_has_no_guard (env_with driver_ok)
                  {| _DbCtx.connection :=
                       Some {| _LazyConnection.connection := Some 7%nat |};
                     _DbCtx.transactions := 2 |}) eq_refl).
Defined.

(** C7 as stated fails: [init()] on a context that holds driver connection 7
    inside two open transaction scopes raises nothing; it replaces the lazy
    connection and resets the depth. *)
Lemma ctx_init_twice_succeeds :
  let ctx := {| _DbCtx.connection :=
                  Some {| _LazyConnection.connection := Some 7%nat |};
                _DbCtx.transactions := 2 |} in
  let r := _DbCtx.init (env_with driver_ok) ctx in
  _DbCtx.is_init ctx = true
  /\ (forall e, outcome_of r <> Raised e)
  /\ self_of r = {| _DbCtx.connection := Some _LazyConnection.__init__;
                    _DbCtx.transactions := 0 |}.
Proof.
  cbn zeta. split; [reflexivity|split; [|reflexivity]].
  intros e. vm_compute. discriminate.
Qed.

(** C8, evaluated on a second [create_engine] call.  [DBError] is declared
    with [def], so [DBError('Engine is already initialized.')] is None and
    the [raise] statement raises TypeError; the engine is left as it was and
    nothing is logged. *)
Lemma create_engine_twice_raises_TypeError :
  let g := env_with driver_ok in
  let r := create_engine "postgres" "1129" "test" "127.0.0.1" 5432 "postgres"
             g tt in
  engine g = Some (_Engine.__init__ test_params)
  /\ outcome_of r = Raised TypeError
  /\ engine (env_of r) = engine g
  /\ trace_of r = [].
Proof. cbn zeta. repeat split. Qed.

(** ** Order and balance in the transaction scope *)

(** C9.  In [with transaction(): body] entered on a context that is not
    initialised, so that this scope owns the connection: the scope's commit
    or rollback is entered once and the context's cleanup once, whatever the
    driver answers to commit, rollback and close; no finalization event
    follows a release event; and the driver connection held at exit, if any,
    is closed once.  On that connection the driver calls that end the
    transaction and the connection are, in this order: the commit after a
    body that did not raise, with the rollback after it when the commit
    raised, or the rollback after a body that raised; and then the close. *)
Theorem finalization_precedes_release body g ctx :
  _DbCtx.is_init ctx = false ->
  let r0 := _TransactionCtx.__enter__ g ctx in
  let r1 := exec body (env_of r0) (self_of r0) in
  let r := exec (WithTransaction body) g ctx in
  count is_finalize_call (trace_of r) = 1%nat
  /\ count is_cleanup_call (trace_of r) = 1%nat
  /\ finalize_before_release (trace_of r) = true
  /\ filter is_close (trace_of r)
     = match held (self_of r1) with
       | Some c => [Drv (DClose c)]
       | None => []
       end
  /\ filter is_driver_end (trace_of r)
     = match held (self_of r1) with
       | None => []
       | Some c =>
           (match exc_of r1 with
            | None =>
                Drv (DCommit c)
                :: match driver (env_of r1) (ticks (env_of r1))
                                (DCommit c) with
                   | None => []
                   | Some _ => [Drv (DRollback c)]
                   end
            | Some _ => [Drv (DRollback c)]
            end ++ [Drv (DClose c)])%list
       end.
Proof.
  intros Hi. cbn zeta.
  assert (O : outermost ctx) by (left; exact Hi).
  destruct (tx_body_end body g ctx O) as (Q1 & lc & S1).
  destruct (tx_enter_outermost g ctx O) as (_ & _ & _ & Q0).
  unfold count.
  rewrite !tx_with_filter
    by (assumption || calm_filter || (intros [[]| |[]]; cbn; congruence)).
  rewrite tx_with_eq. proj.
  rewrite !calm_finalize_before_release by auto using quiet_calm.
  unfold held. rewrite S1, Hi. cbn [negb _DbCtx.connection].
  rewrite tx_exit_outer_end.
  pose proof (tx_exit_outer_release (exc_of (exec body
                (env_of (_TransactionCtx.__enter__ g ctx))
                (self_of (_TransactionCtx.__enter__ g ctx))))
                (env_of (exec body
                (env_of (_TransactionCtx.__enter__ g ctx))
                (self_of (_TransactionCtx.__enter__ g ctx)))) lc)
    as (A & B & C & D).
  cbn zeta in A, B, C, D. unfold count in A, B.
  split; [exact A|split; [exact B|split; [exact C|split; [exact D|]]]].
  reflexivity.
Qed.

(** Commit and rollback both raise, and cleanup still runs, after them. *)
Lemma finalization_precedes_release_witness :
  let r := exec (WithTransaction CursorStmt) (env_with driver_both_fail)
             _DbCtx.__init__ in
  _DbCtx.is_init _DbCtx.__init__ = false
  /\ outcome_of r = Raised (DriverError 2)
  /\ count is_cleanup_call (trace_of r) = 1%nat
  /\ finalize_before_release (trace_of r) = true
  /\ filter is_close (trace_of r) = [Drv (DClose 0%nat)]
  /\ filter is_driver_end (trace_of r)
     = [Drv (DCommit 0%nat); Drv (DRollback 0%nat); Drv (DClose 0%nat)].
Proof.
  cbn zeta. split; [reflexivity|split; [reflexivity|]].
  exact (proj2 (finalization_precedes_release CursorStmt
                  (env_with driver_both_fail) _DbCtx.__init__ eq_refl)).
Defined.

(** C10.  [__exit__] lowers the depth by one on every call, whatever the
    scope, the exception, the driver and the context.  Hence, from any
    context with a depth of at least 0 that is 0 when the context is not
    initialised (which a new context satisfies, and which the statement
    preserves), [with transaction(): body] ends with the depth it started
    with, also when commit, rollback or close raise. *)
Theorem transaction_depth_restored body g ctx :
  0 <= _DbCtx.transactions ctx ->
  (_DbCtx.is_init ctx = false -> _DbCtx.transactions ctx = 0) ->
  let r := exec (WithTransaction body) g ctx in
  _DbCtx.transactions (self_of r) = _DbCtx.transactions ctx
  /\ balanced (self_of r)
  /\ forall self exc g' ctx',
       _DbCtx.transactions
         (self_of (_TransactionCtx.__exit__ self exc g' ctx'))
       = _DbCtx.transactions ctx' - 1.
Proof.
  intros B0 B1. cbn zeta.
  destruct (exec_balanced (WithTransaction body) g ctx (conj B0 B1))
    as (T & B).
  split; [exact T|split; [exact B|]].
  intros. apply tx_exit_depth.
Qed.

Lemma transaction_depth_restored_witness :
  let body := Seq CursorStmt (WithTransaction Pass) in
  let r := exec (WithTransaction body) (env_with driver_both_fail)
             _DbCtx.__init__ in
  0 <= _DbCtx.transactions _DbCtx.__init__
  /\ (_DbCtx.is_init _DbCtx.__init__ = false ->
      _DbCtx.transactions _DbCtx.__init__ = 0)
  /\ outcome_of r = Raised (DriverError 2)
  /\ _DbCtx.transactions (self_of r) = 0.
Proof.
  cbn zeta. split; [cbn; lia|split; [reflexivity|split; [reflexivity|]]].
  exact (proj1 (transaction_depth_restored
                  (Seq CursorStmt (WithTransaction Pass))
                  (env_with driver_both_fail) _DbCtx.__init__
                  (Z.le_refl 0) (fun _ => eq_refl))).
Defined.

(** * Further properties *)

(** ** A context that is initialised stays so *)

Lemma cursors_on_app c a b :
  cursors_on c a -> cursors_on c b -> cursors_on c (a ++ b).
Proof.
  intros Ha Hb c' H. apply in_app_or in H as [H|H]; auto.
Qed.

Lemma cursors_on_nil c : cursors_on c [].
Proof. intros c' []. Qed.

Lemma pinned_refl ctx : _DbCtx.is_init ctx = true -> pinned ctx ctx [].
Proof.
  intros I. repeat split; auto. apply cursors_on_nil.
Qed.

Lemma pinned_trans ctx s1 t1 s2 t2 :
  pinned ctx s1 t1 -> pinned s1 s2 t2 -> pinned ctx s2 (t1 ++ t2).
Proof.
  intros (I & R & H) (I' & R' & H'). unfold pinned.
  split; [assumption|].
  split; [rewrite filter_app, R, R'; reflexivity|].
  intros c Hc. destruct (H c Hc) as (H1 & H2 & H3).
  destruct (H' c H1) as (H1' & H2' & H3').
  split; [assumption|]. split; [rewrite filter_app, H2, H2'; reflexivity|].
  apply cursors_on_app; assumption.
Qed.

Ltac pinned_cases :=
  unfold pinned, held; unfold_db; cbn; driver_cases;
  (split; [reflexivity|split; [reflexivity|]]);
  intros ? E; try discriminate E; injection E as <-;
  (split; [reflexivity|split; [reflexivity|]]);
  intros ? H; cbn in H; intuition congruence.

Lemma lazy_cursor_pinned g ctx :
  _DbCtx.is_init ctx = true ->
  let r := _DbCtx.on_connection _LazyConnection.cursor g ctx in
  pinned ctx (self_of r) (trace_of r).
Proof.
  destruct ctx as [[[[c|]]|] n]; [| |discriminate]; intros _; cbn zeta;
    pinned_cases.
Qed.

(** Leaving a transaction scope that does not own the connection. *)
Lemma tx_exit_joined_pinned exc g ctx :
  _DbCtx.is_init ctx = true ->
  let r := _TransactionCtx.__exit__
             {| _TransactionCtx.should_close_conn := false |} exc g ctx in
  pinned ctx (self_of r) (trace_of r).
Proof.
  destruct ctx as [[[[c|]]|] n], exc as [e|]; try discriminate; intros _;
    cbn zeta; pinned_cases.
Qed.

Lemma update_body_eq g ctx :
  _update_body g ctx
  = after [Log INFO "SQL: %s, ARGS: %s"]
      (bind (_DbCtx.on_connection _LazyConnection.cursor) _update_rest g ctx).
Proof. reflexivity. Qed.

Lemma update_rest_pinned cur g ctx :
  _DbCtx.is_init ctx = true ->
  let r := _update_rest cur g ctx in
  pinned ctx (self_of r) (trace_of r).
Proof.
  destruct ctx as [[[[c|]]|] n]; [| |discriminate]; intros _; cbn zeta;
    unfold _update_rest; pinned_cases.
Qed.

Lemma pinned_log ctx s t l msg :
  pinned ctx s t -> pinned ctx s (Log l msg :: t).
Proof.
  intros (I & R & H). split; [assumption|]. split; [assumption|].
  intros c Hc. destruct (H c Hc) as (H1 & H2 & H3).
  split; [assumption|]. split; [assumption|].
  intros c' [E|E]; [discriminate|auto].
Qed.

Lemma update_body_pinned g ctx :
  _DbCtx.is_init ctx = true ->
  let r := _update_body g ctx in
  pinned ctx (self_of r) (trace_of r).
Proof.
  intros I. cbn zeta. rewrite update_body_eq, after_eq, bind_eq. proj.
  pose proof (lazy_cursor_pinned g ctx I) as P. cbn zeta in P.
  apply pinned_log.
  destruct (outcome_of (_DbCtx.on_connection _LazyConnection.cursor g ctx));
    [|exact P].
  rewrite after_eq. proj.
  eapply pinned_trans; [exact P|].
  apply update_rest_pinned. apply P.
Qed.

(** X1.  Once the context is initialised, no code run on it releases the
    connection: whatever the statements and the driver, the context stays
    initialised and there is no cleanup and no close.  If a driver connection
    is held, it stays held, the factory is not called again, and every cursor
    is requested from that connection. *)
Theorem initialised_context_is_pinned p : forall g ctx,
  _DbCtx.is_init ctx = true ->
  let r := exec p g ctx in
  _DbCtx.is_init (self_of r) = true
  /\ filter release (trace_of r) = []
  /\ forall c, held ctx = Some c ->
       held (self_of r) = Some c
       /\ filter is_connect (trace_of r) = []
       /\ cursors_on c (trace_of r).
Proof.
  change (forall g ctx, _DbCtx.is_init ctx = true ->
            pinned ctx (self_of (exec p g ctx)) (trace_of (exec p g ctx))).
  induction p as [|a IHa b IHb|e| | |body IH|body IH]; intros g ctx I.
  - apply pinned_refl; assumption.
  - cbn [exec]. rewrite bind_eq. pose proof (IHa g ctx I) as Pa.
    destruct (outcome_of (exec a g ctx)); [|exact Pa].
    rewrite after_eq. proj. eapply pinned_trans; [exact Pa|].
    apply IHb. apply Pa.
  - apply pinned_refl; assumption.
  - cbn [exec]. rewrite bind_eq. unfold _DbCtx.cursor.
    pose proof (lazy_cursor_pinned g ctx I) as P. cbn zeta in P.
    destruct (outcome_of (_DbCtx.on_connection _LazyConnection.cursor g ctx));
      [|exact P].
    cbn. rewrite app_nil_r. exact P.
  - cbn [exec].
    rewrite (with_eq _ _ _ g ctx {| _Connection.should_cleanup := false |})
      by (rewrite conn_enter_joined by assumption; reflexivity).
    rewrite conn_enter_joined by assumption. proj.
    rewrite conn_exit. proj. rewrite app_nil_r. cbn [app].
    apply update_body_pinned. assumption.
  - cbn [exec].
    rewrite (with_eq _ _ _ g ctx {| _Connection.should_cleanup := false |})
      by (rewrite conn_enter_joined by assumption; reflexivity).
    rewrite conn_enter_joined by assumption. proj.
    rewrite conn_exit. proj. rewrite app_nil_r. cbn [app].
    apply IH. assumption.
  - cbn [exec].
    rewrite (with_eq _ _ _ g ctx
               {| _TransactionCtx.should_close_conn := false |})
      by (rewrite tx_enter_joined by assumption; reflexivity).
    rewrite tx_enter_joined by assumption. proj.
    set (ctx1 := _DbCtx.set_transactions ctx (_DbCtx.transactions ctx + 1)).
    assert (I1 : _DbCtx.is_init ctx1 = true) by exact I.
    pose proof (IH g ctx1 I1) as Pb.
    apply pinned_log. eapply pinned_trans.
    + destruct Pb as (Ib & Rb & Hb). split; [exact Ib|]. split; [exact Rb|].
      intros c Hc. apply Hb. exact Hc.
    + apply tx_exit_joined_pinned. apply Pb.
Qed.

(** ** Laziness *)

Lemma conn_enter_outcome g ctx :
  outcome_of (_Connection.__enter__ g ctx)
  = Return {| _Connection.should_cleanup := negb (_DbCtx.is_init ctx) |}.
Proof. destruct ctx as [[lc|] n]; reflexivity. Qed.

Lemma idle_trans s1 t1 s2 t2 :
  idle s1 t1 -> idle s2 t2 -> idle s2 (t1 ++ t2).
Proof.
  intros [_ D1] [H2 D2]. split; [assumption|].
  rewrite filter_app, D1, D2. reflexivity.
Qed.

Ltac idle_cases :=
  unfold idle, held; unfold_db; cbn; driver_cases; split; reflexivity.

Lemma conn_enter_idle g ctx :
  held ctx = None ->
  let r := _Connection.__enter__ g ctx in idle (self_of r) (trace_of r).
Proof.
  destruct ctx as [[[[c|]]|] n]; try discriminate; intros _; cbn zeta;
    idle_cases.
Qed.

Lemma tx_enter_idle g ctx :
  held ctx = None ->
  let r := _TransactionCtx.__enter__ g ctx in idle (self_of r) (trace_of r).
Proof.
  destruct ctx as [[[[c|]]|] n]; try discriminate; intros _; cbn zeta;
    idle_cases.
Qed.

Lemma tx_exit_idle self exc g ctx :
  held ctx = None ->
  let r := _TransactionCtx.__exit__ self exc g ctx in
  idle (self_of r) (trace_of r).
Proof.
  destruct ctx as [[[[c|]]|] n], self as [[|]], exc as [e|];
    try discriminate; intros _; cbn zeta; idle_cases.
Qed.

(** X2.  Connections are lazy: code that opens and leaves scopes but never
    asks for a cursor or runs an update makes no driver call at all, and
    leaves the context without a driver connection. *)
Theorem scopes_alone_never_connect p : forall g ctx,
  requests_cursor p = false ->
  held ctx = None ->
  let r := exec p g ctx in
  held (self_of r) = None /\ filter is_driver_event (trace_of r) = [].
Proof.
  change (forall g ctx, requests_cursor p = false -> held ctx = None ->
            idle (self_of (exec p g ctx)) (trace_of (exec p g ctx))).
  induction p as [|a IHa b IHb|e| | |body IH|body IH]; intros g ctx N H;
    cbn [requests_cursor] in N; try discriminate N.
  - split; [exact H|reflexivity].
  - apply orb_false_iff in N as [Na Nb].
    cbn [exec]. rewrite bind_eq. pose proof (IHa g ctx Na H) as Pa.
    destruct (outcome_of (exec a g ctx)); [|exact Pa].
    rewrite after_eq. proj. eapply idle_trans; [exact Pa|].
    apply IHb; [assumption|apply Pa].
  - split; [exact H|reflexivity].
  - cbn [exec]. rewrite (with_eq _ _ _ g ctx _ (conn_enter_outcome g ctx)).
    proj. rewrite conn_exit. proj. rewrite app_nil_r.
    pose proof (conn_enter_idle g ctx H) as P0. cbn zeta in P0.
    eapply idle_trans; [exact P0|]. apply IH; [assumption|apply P0].
  - cbn [exec]. rewrite (with_eq _ _ _ g ctx _ (tx_enter_outcome g ctx)).
    proj.
    pose proof (tx_enter_idle g ctx H) as P0. cbn zeta in P0.
    pose proof (IH (env_of (_TransactionCtx.__enter__ g ctx)) _ N (proj1 P0))
      as P1.
    eapply idle_trans; [exact P0|]. eapply idle_trans; [exact P1|].
    apply tx_exit_idle. apply P1.
Qed.

(** ** A transaction that never asked for a cursor *)

(** X3.  When no driver connection is held at the exit of the outermost
    transaction scope, the statement raises AttributeError, after a body that
    succeeded as after one that raised, and the exit makes no driver call:
    [commit] and [rollback] of the lazy connection call a method of None. *)
Theorem transaction_without_connection_raises body g ctx :
  outermost ctx ->
  let r0 := _TransactionCtx.__enter__ g ctx in
  let r1 := exec body (env_of r0) (self_of r0) in
  let r := exec (WithTransaction body) g ctx in
  held (self_of r1) = None ->
  outcome_of r = Raised AttributeError
  /\ filter is_driver_event (trace_of r) = filter is_driver_event (trace_of r1).
Proof.
  intros O. cbn zeta. intros H.
  destruct (tx_body_end body g ctx O) as (_ & lc & S1).
  destruct (tx_enter_outermost g ctx O) as (_ & _ & _ & Q0).
  rewrite tx_with_eq. proj. rewrite S1 in *. unfold held in H. cbn in H.
  destruct lc as [raw]. cbn in H. subst raw.
  assert (D0 : filter is_driver_event
                 (trace_of (_TransactionCtx.__enter__ g ctx)) = []).
  { destruct ctx as [[lc|] n]; reflexivity. }
  rewrite !filter_app, D0. cbn [app].
  destruct (exc_of _), (negb (_DbCtx.is_init ctx));
    unfold_db; cbn; rewrite ?app_nil_r; split; reflexivity.
Qed.

(** ** What an owning transaction scope leaves behind *)

(** X4.  A transaction scope entered on a context that is not initialised
    leaves no driver connection held and the depth at 0, whatever raised;
    if the statement returns normally the context is again the new one. *)
Theorem owning_transaction_resets_context body g ctx :
  _DbCtx.is_init ctx = false ->
  let r := exec (WithTransaction body) g ctx in
  held (self_of r) = None
  /\ _DbCtx.transactions (self_of r) = 0
  /\ (outcome_of r = Return tt -> self_of r = _DbCtx.__init__).
Proof.
  intros Hi. cbn zeta.
  assert (O : outermost ctx) by (left; exact Hi).
  destruct (tx_body_end body g ctx O) as (_ & lc & S1).
  rewrite tx_with_eq. proj. rewrite S1, Hi. cbn [negb].
  destruct lc as [[c|]], (exc_of _);
    unfold_db; unfold held, _DbCtx.__init__; cbn; driver_cases;
    (split; [reflexivity|split; [reflexivity|]]);
    intros E; try discriminate E; reflexivity.
Qed.

(** ** [update] *)

(** X5.  [update] on a held connection commits once exactly when its cursor
    request and its execute were answered and no transaction scope is open
    (depth 0); it never rolls back, also when that commit raises; it closes
    the cursor once if it obtained one; and it leaves the context as it
    was. *)
Theorem update_autocommits_outside_transactions g ctx c :
  held ctx = Some c ->
  let r := exec UpdateStmt g ctx in
  let n := ticks g in
  let cursor_ok := answers g n (DCursor c) in
  let execute_ok := answers g (S n) (DExecute n) in
  filter is_commit (trace_of r)
  = (if cursor_ok && execute_ok && (_DbCtx.transactions ctx =? 0)
     then [Drv (DCommit c)] else [])
  /\ filter is_rollback (trace_of r) = []
  /\ filter is_cursor_close (trace_of r)
     = (if cursor_ok then [Drv (DCursorClose n)] else [])
  /\ self_of r = ctx.
Proof.
  intros H. cbn zeta.
  destruct ctx as [[[[c0|]]|] d]; try discriminate H.
  injection H as ->.
  cbn [exec].
  rewrite (with_eq _ _ _ g _ {| _Connection.should_cleanup := false |})
    by reflexivity.
  rewrite conn_enter_joined by reflexivity. proj.
  rewrite conn_exit. proj. rewrite app_nil_r. cbn [app].
  unfold answers, _update_body. unfold_db. cbn.
  driver_cases; repeat split; reflexivity.
Qed.

Lemma update_autocommits_outside_transactions_witness :
  let ctx := {| _DbCtx.connection :=
                  Some {| _LazyConnection.connection := Some 0%nat |};
                _DbCtx.transactions := 0 |} in
  let g := tick (env_with driver_commit_fails) in
  let r := exec UpdateStmt g ctx in
  held ctx = Some 0%nat
  /\ filter is_commit (trace_of r) = [Drv (DCommit 0%nat)]
  /\ filter is_rollback (trace_of r) = []
  /\ filter is_cursor_close (trace_of r) = [Drv (DCursorClose 1%nat)].
Proof.
  cbn zeta. split; [reflexivity|].
  pose proof (update_autocommits_outside_transactions
                (tick (env_with driver_commit_fails))
                {| _DbCtx.connection :=
                     Some {| _LazyConnection.connection := Some 0%nat |};
                   _DbCtx.transactions := 0 |} 0%nat eq_refl)
    as (C & R & K & _).
  split; [exact C|split; [exact R|exact K]].
Defined.

(** ** [class Dict] *)

Lemma dict_get_set d k v k' :
  Dict.__getitem__ (Dict.__setitem__ d k v) k'
  = if String.eqb k k' then Some v else Dict.__getitem__ d k'.
Proof.
  induction d as [|[k0 w] d IH]; cbn.
  - reflexivity.
  - destruct (String.eqb_spec k0 k) as [->|N]; cbn.
    + destruct (String.eqb k k'); reflexivity.
    + rewrite IH. destruct (String.eqb_spec k0 k') as [->|N'].
      * destruct (String.eqb_spec k k') as [->|]; [congruence|reflexivity].
      * reflexivity.
Qed.

Lemma dict_keys_set d k v :
  Dict.keys (Dict.__setitem__ d k v)
  = if existsb (String.eqb k) (Dict.keys d) then Dict.keys d
    else (Dict.keys d ++ [k])%list.
Proof.
  unfold Dict.keys. induction d as [|[k0 w] d IH]; cbn; [reflexivity|].
  rewrite (String.eqb_sym k k0).
  destruct (String.eqb_spec k0 k) as [->|N]; cbn; [reflexivity|].
  rewrite IH. destruct (existsb _ _); reflexivity.
Qed.

(** X6.  After [d.k = v], [__getattr__] returns [v] for [k] and what it
    did before for every other key; the keys stay without repetition. *)
Theorem dict_setattr_getattr {S} d k v k' :
  @Dict.__getattr__ S (Dict.__setattr__ d k v) k'
  = (if String.eqb k k' then ret v else Dict.__getattr__ d k')
  /\ (NoDup (Dict.keys d) -> NoDup (Dict.keys (Dict.__setattr__ d k v))).
Proof.
  split.
  - unfold Dict.__getattr__, Dict.__setattr__. rewrite dict_get_set.
    destruct (String.eqb k k'); reflexivity.
  - intros N. unfold Dict.__setattr__. rewrite dict_keys_set.
    destruct (existsb _ _) eqn:E; [assumption|].
    apply NoDup_app; [assumption|repeat constructor; intros []|].
    intros x Hx [E'|[]]. subst x.
    assert (existsb (String.eqb k) (Dict.keys d) = true); [|congruence].
    apply existsb_exists. exists k. split; [assumption|apply String.eqb_refl].
Qed.

Lemma dict_fold_other (l : list (string * value)) : forall d k,
  ~ In k (map fst l) ->
  Dict.__getitem__
    (fold_left (fun self kv => Dict.__setitem__ self (fst kv) (snd kv)) l d) k
  = Dict.__getitem__ d k.
Proof.
  induction l as [|[k0 v0] l IH]; intros d k N; cbn; [reflexivity|].
  rewrite IH by (intros H; apply N; right; exact H).
  rewrite dict_get_set. cbn.
  destruct (String.eqb_spec k0 k) as [->|]; [|reflexivity].
  exfalso. apply N. left. reflexivity.
Qed.

(** X7.  [Dict(names, values, kw)] pairs names with values up to the shorter
    of the two: for a key that is neither in [kw] nor among the first
    [len(values)] names, [__getattr__] raises, and what it raises is
    TypeError, not AttributeError. *)
Theorem dict_init_missing_key {S} names values kw k :
  ~ In k (firstn (List.length values) names) ->
  Dict.__getitem__ kw k = None ->
  @Dict.__getattr__ S (Dict.__init__ names values kw) k = raise TypeError.
Proof.
  intros N K. unfold Dict.__getattr__, Dict.__init__.
  rewrite dict_fold_other, K; [reflexivity|].
  intros H. apply N. clear - H.
  revert values H. induction names as [|n names IH]; intros [|v values] H;
    cbn in *; try contradiction.
  destruct H as [H|H]; [left; exact H|right; apply IH; exact H].
Qed.

Lemma dict_init_missing_key_witness :
  ~ In "email" (firstn (List.length [VInt 100; VStr "Alice"])
                       ["id"; "name"; "email"])
  /\ Dict.__getitem__ [] "email" = None
  /\ outcome_of
       (Dict.__getattr__
          (Dict.__init__ ["id"; "name"; "email"] [VInt 100; VStr "Alice"] [])
          "email" (env_with driver_ok) tt)
     = Raised TypeError.
Proof.
  assert (N : ~ In "email" (firstn (List.length [VInt 100; VStr "Alice"])
                                   ["id"; "name"; "email"])).
  { cbn. intros [H|[H|[]]]; discriminate H. }
  split; [exact N|split; [reflexivity|]].
  rewrite (dict_init_missing_key ["id"; "name"; "email"]
             [VInt 100; VStr "Alice"] [] "email" N eq_refl).
  reflexivity.
Defined.

(** X8.  With distinct names, [Dict(names, values, kw)] maps the [i]-th name
    to the [i]-th value, for every [i] below the number of values. *)
Theorem dict_init_reads_columns names : forall values kw i k,
  NoDup names ->
  nth_error names i = Some k ->
  (i < List.length values)%nat ->
  Dict.__getitem__ (Dict.__init__ names values kw) k = nth_error values i.
Proof.
  unfold Dict.__init__.
  induction names as [|n names IH]; intros values kw i k ND Hk Hi.
  - destruct i; discriminate Hk.
  - destruct values as [|v values]; [cbn in Hi; lia|].
    inversion ND as [|? ? Nn ND']; subst. cbn [combine fold_left fst snd].
    destruct i as [|i]; cbn in Hk.
    + injection Hk as <-. rewrite dict_fold_other.
      * rewrite dict_get_set, String.eqb_refl. reflexivity.
      * intros H. apply Nn. clear - H.
        revert values H. induction names as [|m names IH];
          intros [|w values] H; cbn in *; try contradiction.
        destruct H as [H|H]; [left; exact H|right; eapply IH; exact H].
    + cbn [nth_error]. apply IH; [assumption|assumption|cbn in Hi; lia].
Qed.

Lemma dict_init_reads_columns_witness :
  NoDup ["id"; "name"]
  /\ nth_error ["id"; "name"] 1 = Some "name"
  /\ (1 < List.length [VInt 100; VStr "Alice"])%nat
  /\ Dict.__getitem__ (Dict.__init__ ["id"; "name"]
                         [VInt 100; VStr "Alice"] []) "name"
     = Some (VStr "Alice").
Proof.
  assert (ND : NoDup ["id"; "name"]).
  { repeat constructor; cbn; intros H; intuition discriminate. }
  assert (L : (1 < List.length [VInt 100; VStr "Alice"])%nat) by (cbn; lia).
  split; [exact ND|split; [reflexivity|split; [exact L|]]].
  exact (dict_init_reads_columns ["id"; "name"] [VInt 100; VStr "Alice"] []
           1%nat "name" ND eq_refl L).
Defined.

(** ** The query helpers *)

Lemma pure_ret {S A} (a : A) : pure (@ret S A a).
Proof. exists (Return a). reflexivity. Qed.

Lemma pure_raise {S A} e : pure (@raise S A e).
Proof. exists (Raised e). reflexivity. Qed.

Lemma pure_lift {S A} (o : outcome A) : pure (@lift S A o).
Proof. exists o. reflexivity. Qed.

Lemma pure_bind {S A B} (m : M S A) (k : A -> M S B) :
  pure m -> (forall a, pure (k a)) -> pure (bind m k).
Proof.
  intros [o Hm] Hk. destruct o as [a|e].
  - destruct (Hk a) as [o' Hk']. exists o'. intros g s.
    unfold bind. rewrite Hm, Hk'. reflexivity.
  - exists (Raised e). intros g s. unfold bind. rewrite Hm. reflexivity.
Qed.

Lemma pure_read_names {S} rs : pure (@read_names S rs).
Proof.
  unfold read_names. destruct (description rs);
    [apply pure_raise|apply pure_ret].
Qed.

Lemma pure_dicts_of {S} rs row : pure (@dicts_of S rs row).
Proof.
  induction row as [|x row IH]; cbn [dicts_of]; [apply pure_ret|].
  apply pure_bind; [apply pure_read_names|]. intros names.
  apply pure_bind; [destruct (iter_value x); [apply pure_ret|apply pure_raise]|].
  intros chars. apply pure_bind; [exact IH|]. intros. apply pure_ret.
Qed.

Lemma pure_select_result {S} rs first : pure (@_select_result S rs first).
Proof.
  unfold _select_result. destruct first.
  - apply pure_bind; [apply pure_lift|]. intros [[|v row]|];
      try apply pure_ret.
    apply pure_bind; [apply pure_read_names|]. intros. apply pure_ret.
  - apply pure_bind; [apply pure_lift|]. intros [row|];
      [|apply pure_raise].
    apply pure_bind; [apply pure_dicts_of|]. intros. apply pure_ret.
Qed.

(** In a context that is initialised the connection scope around [_select]
    does nothing. *)
Lemma select_joined rs first g ctx :
  _DbCtx.is_init ctx = true ->
  _select rs first g ctx = _select_body rs first g ctx.
Proof.
  intros I. unfold _select, with_return.
  rewrite conn_enter_joined by assumption.
  destruct (_select_body rs first g ctx) as [o1 g1 s1 t1].
  rewrite conn_exit. cbn [app]. rewrite app_nil_r.
  destruct o1; reflexivity.
Qed.

(** [_select] on a held connection, step by step. *)
Lemma select_held rs first g c d :
  let ctx := {| _DbCtx.connection :=
                  Some {| _LazyConnection.connection := Some c |};
                _DbCtx.transactions := d |} in
  let n := ticks g in
  _select rs first g ctx =
  match driver g n (DCursor c) with
  | Some e =>
      Reply (Raised e) (tick g) ctx
            [Log INFO "SQL: %s, ARGS: %s"; Drv (DCursor c)]
  | None =>
      Reply (match driver g (S (S n)) (DCursorClose n),
                   driver g (S n) (DExecute n) with
             | Some e3, _ => Raised e3
             | None, Some e2 => Raised e2
             | None, None =>
                 outcome_of (_select_result rs first (tick (tick g)) ctx)
             end)
            (tick (tick (tick g))) ctx
            [Log INFO "SQL: %s, ARGS: %s"; Drv (DCursor c);
             Drv (DExecute n); Drv (DCursorClose n)]
  end.
Proof.
  cbn zeta. rewrite select_joined by reflexivity.
  unfold _select_body, _select_rest. unfold_db. cbn.
  destruct (driver g (ticks g) (DCursor c)); cbn; [reflexivity|].
  destruct (pure_select_result (S := _DbCtx.t) rs first) as [o Ho].
  destruct (driver g (S (ticks g)) (DExecute (ticks g))); cbn.
  - destruct (driver g (S (S (ticks g))) _); reflexivity.
  - rewrite !Ho. cbn.
    destruct (driver g (S (S (ticks g))) _), o; reflexivity.
Qed.

Lemma held_ctx ctx c :
  held ctx = Some c ->
  ctx = {| _DbCtx.connection :=
             Some {| _LazyConnection.connection := Some c |};
           _DbCtx.transactions := _DbCtx.transactions ctx |}.
Proof.
  destruct ctx as [[[[c0|]]|] d]; try discriminate. intros [= ->].
  reflexivity.
Qed.

Lemma select_answered rs first g ctx c :
  held ctx = Some c ->
  query_answered g c ->
  outcome_of (_select rs first g ctx)
  = outcome_of (_select_result rs first g ctx).
Proof.
  intros H (A1 & A2 & A3). rewrite (held_ctx ctx c H), select_held.
  unfold answers in *.
  destruct (driver g (ticks g) (DCursor c)); [discriminate|].
  destruct (driver g (S (S (ticks g))) _); [discriminate|].
  destruct (driver g (S (ticks g)) _); [discriminate|]. cbn.
  destruct (pure_select_result (S := _DbCtx.t) rs first) as [o Ho].
  rewrite !Ho. reflexivity.
Qed.

(** X9.  [_select] on a held connection closes the cursor once if the driver
    gave it one, whatever the execute and the fetch do; it commits nothing,
    rolls back nothing, releases nothing, and leaves the context as it
    was. *)
Theorem select_closes_its_cursor rs first g ctx c :
  held ctx = Some c ->
  let r := _select rs first g ctx in
  let n := ticks g in
  filter is_cursor_close (trace_of r)
  = (if answers g n (DCursor c) then [Drv (DCursorClose n)] else [])
  /\ filter finalization (trace_of r) = []
  /\ filter release (trace_of r) = []
  /\ self_of r = ctx.
Proof.
  intros H. cbn zeta. rewrite (held_ctx ctx c H), select_held.
  unfold answers. destruct (driver g (ticks g) (DCursor c)); cbn;
    repeat split; reflexivity.
Qed.

Lemma select_closes_its_cursor_witness :
  let ctx := {| _DbCtx.connection :=
                  Some {| _LazyConnection.connection := Some 0%nat |};
                _DbCtx.transactions := 0 |} in
  let g := tick (env_with driver_ok) in
  let rs := {| description := []; fetchone := Raised (DriverError 3) |} in
  let r := _select rs true g ctx in
  held ctx = Some 0%nat
  /\ outcome_of r = Raised (DriverError 3)
  /\ filter is_cursor_close (trace_of r) = [Drv (DCursorClose 1%nat)].
Proof.
  cbn zeta. split; [reflexivity|split; [reflexivity|]].
  exact (proj1 (select_closes_its_cursor
                  {| description := []; fetchone := Raised (DriverError 3) |}
                  true (tick (env_with driver_ok))
                  {| _DbCtx.connection :=
                       Some {| _LazyConnection.connection := Some 0%nat |};
                     _DbCtx.transactions := 0 |} 0%nat eq_refl)).
Defined.

(** X10.  When the driver answers and there is a row, [select_one] returns
    a [Dict] in which every column name reads the value of its column,
    provided the column names are distinct. *)
Theorem select_one_reads_row rs g ctx c row i k :
  held ctx = Some c ->
  query_answered g c ->
  fetchone rs = Return (Some row) ->
  NoDup (description rs) ->
  nth_error (description rs) i = Some k ->
  (i < List.length row)%nat ->
  exists d,
    outcome_of (select_one rs g ctx) = Return (SelDict d)
    /\ Dict.__getitem__ d k = nth_error row i.
Proof.
  intros H A F ND Hk Hi. unfold select_one.
  rewrite (select_answered rs true g ctx c H A).
  unfold _select_result, lift, read_names. unfold_db. cbn. rewrite F. cbn.
  destruct row as [|v row]; [cbn in Hi; lia|].
  destruct (description rs) as [|n names] eqn:D;
    [destruct i; discriminate Hk|].
  exists (Dict.__init__ (n :: names) (v :: row) []). split; [reflexivity|].
  exact (dict_init_reads_columns (n :: names) (v :: row) [] i k ND Hk Hi).
Qed.

(** X11.  When the driver answers, [select_one] returns None if there is no
    row or the row is empty, passes on an error of the fetch, and raises
    UnboundLocalError for a row without a description, [names] being
    assigned only under [if cursor.description]. *)
Theorem select_one_without_row rs g ctx c :
  held ctx = Some c ->
  query_answered g c ->
  outcome_of (select_one rs g ctx)
  = match fetchone rs with
    | Raised e => Raised e
    | Return None | Return (Some []) => Return SelNone
    | Return (Some row) =>
        match description rs with
        | [] => Raised UnboundLocalError
        | names => Return (SelDict (Dict.__init__ names row []))
        end
    end.
Proof.
  intros H A. unfold select_one.
  rewrite (select_answered rs true g ctx c H A).
  unfold _select_result, lift, read_names. unfold_db. cbn.
  destruct (fetchone rs) as [[[|v row]|]|e]; cbn; try reflexivity.
  destruct (description rs); reflexivity.
Qed.

Lemma select_one_reads_row_witness :
  let ctx := {| _DbCtx.connection :=
                  Some {| _LazyConnection.connection := Some 0%nat |};
                _DbCtx.transactions := 0 |} in
  let g := tick (env_with driver_ok) in
  let rs := {| description := ["id"; "name"];
               fetchone := Return (Some [VInt 100; VStr "Alice"]) |} in
  held ctx = Some 0%nat
  /\ query_answered g 0%nat
  /\ NoDup (description rs)
  /\ exists d,
       outcome_of (select_one rs g ctx) = Return (SelDict d)
       /\ Dict.__getitem__ d "name" = Some (VStr "Alice").
Proof.
  cbn zeta.
  assert (ND : NoDup ["id"; "name"]).
  { repeat constructor; cbn; intros H; intuition discriminate. }
  assert (A : query_answered (tick (env_with driver_ok)) 0%nat)
    by (repeat split).
  split; [reflexivity|split; [exact A|split; [exact ND|]]].
  exact (select_one_reads_row
           {| description := ["id"; "name"];
              fetchone := Return (Some [VInt 100; VStr "Alice"]) |}
           (tick (env_with driver_ok))
           {| _DbCtx.connection :=
                Some {| _LazyConnection.connection := Some 0%nat |};
              _DbCtx.transactions := 0 |}
           0%nat [VInt 100; VStr "Alice"] 1%nat "name"
           eq_refl A eq_refl ND eq_refl (le_n 2)).
Defined.

Lemma select_one_without_row_witness :
  let ctx := {| _DbCtx.connection :=
                  Some {| _LazyConnection.connection := Some 0%nat |};
                _DbCtx.transactions := 0 |} in
  let g := tick (env_with driver_ok) in
  let rs := {| description := []; fetchone := Return (Some [VInt 1]) |} in
  held ctx = Some 0%nat
  /\ query_answered g 0%nat
  /\ outcome_of (select_one rs g ctx) = Raised UnboundLocalError.
Proof.
  cbn zeta.
  assert (A : query_answered (tick (env_with driver_ok)) 0%nat)
    by (repeat split).
  split; [reflexivity|split; [exact A|]].
  exact (select_one_without_row
           {| description := []; fetchone := Return (Some [VInt 1]) |}
           (tick (env_with driver_ok))
           {| _DbCtx.connection :=
                Some {| _LazyConnection.connection := Some 0%nat |};
              _DbCtx.transactions := 0 |}
           0%nat eq_refl A).
Defined.

Lemma select_int_eq rs g ctx c :
  held ctx = Some c ->
  query_answered g c ->
  outcome_of (select_int rs g ctx)
  = match outcome_of (_select_result rs true g ctx) with
    | Raised e => Raised e
    | Return SelNone => Raised TypeError
    | Return (SelDict [(_, v)]) => Return v
    | Return (SelDict _) => Raised TypeError
    | Return (SelList [_]) => Raised AttributeError
    | Return (SelList _) => Raised TypeError
    end.
Proof.
  intros H A. unfold select_int. rewrite bind_eq.
  rewrite (select_answered rs true g ctx c H A).
  destruct (outcome_of (_select_result rs true g ctx)) as [[|d|l]|e];
    [reflexivity| | |reflexivity].
  - destruct d as [|[k v] [|kv d]]; reflexivity.
  - destruct l as [|x [|y l]]; reflexivity.
Qed.

(** X12.  When the driver answers, [select_int] returns the value of a row
    whose [Dict] has one key; with no row, and with a [Dict] of several
    keys, it raises TypeError: [len(None)] in the first case, and in the
    second [raise MultiColumsError(...)], where [MultiColumsError] is a
    function that returns None. *)
Theorem select_int_result rs g ctx c :
  held ctx = Some c ->
  query_answered g c ->
  outcome_of (select_int rs g ctx)
  = match fetchone rs with
    | Raised e => Raised e
    | Return None | Return (Some []) => Raised TypeError
    | Return (Some row) =>
        match description rs with
        | [] => Raised UnboundLocalError
        | names =>
            match Dict.__init__ names row [] with
            | [(_, v)] => Return v
            | _ => Raised TypeError
            end
        end
    end.
Proof.
  intros H A. rewrite (select_int_eq rs g ctx c H A).
  unfold _select_result, lift, read_names. unfold_db. cbn.
  destruct (fetchone rs) as [[[|v row]|]|e]; cbn; try reflexivity.
  destruct (description rs) as [|n names]; cbn; [reflexivity|].
  destruct (Dict.__init__ (n :: names) (v :: row) []) as [|[k w] [|kv d]];
    reflexivity.
Qed.

Lemma select_int_result_witness :
  let ctx := {| _DbCtx.connection :=
                  Some {| _LazyConnection.connection := Some 0%nat |};
                _DbCtx.transactions := 0 |} in
  let g := tick (env_with driver_ok) in
  held ctx = Some 0%nat
  /\ query_answered g 0%nat
  /\ outcome_of (select_int {| description := ["count"];
                               fetchone := Return (Some [VInt 5]) |} g ctx)
     = Return (VInt 5)
  /\ outcome_of (select_int {| description := ["id"; "name"];
                               fetchone := Return (Some [VInt 96900;
                                                         VStr "Ada"]) |}
                            g ctx)
     = Raised TypeError.
Proof.
  cbn zeta.
  assert (A : query_answered (tick (env_with driver_ok)) 0%nat)
    by (repeat split).
  split; [reflexivity|split; [exact A|]]. split.
  - exact (select_int_result
             {| description := ["count"];
                fetchone := Return (Some [VInt 5]) |}
             (tick (env_with driver_ok))
             {| _DbCtx.connection :=
                  Some {| _LazyConnection.connection := Some 0%nat |};
                _DbCtx.transactions := 0 |} 0%nat eq_refl A).
  - exact (select_int_result
             {| description := ["id"; "name"];
                fetchone := Return (Some [VInt 96900; VStr "Ada"]) |}
             (tick (env_with driver_ok))
             {| _DbCtx.connection :=
                  Some {| _LazyConnection.connection := Some 0%nat |};
                _DbCtx.transactions := 0 |} 0%nat eq_refl A).
Defined.

Lemma dicts_of_named {S} rs row (g : env) (s : S) :
  description rs <> [] ->
  dicts_of rs row g s
  = Reply (if forallb is_text row
           then Return (map (fun x => Dict.__init__ (description rs)
                                        (text_chars x) []) row)
           else Raised TypeError)
          g s [].
Proof.
  intros D. induction row as [|x row IH]; [reflexivity|].
  cbn [dicts_of forallb map]. unfold read_names.
  destruct (description rs) as [|n names] eqn:E; [congruence|].
  unfold bind at 1. unfold ret at 1. cbn [after].
  destruct x as [|z|t]; cbn [iter_value is_text andb]; try reflexivity.
  unfold bind at 1. unfold ret at 1. cbn -[dicts_of Dict.__init__].
  rewrite bind_eq, IH. cbn -[Dict.__init__].
  destruct (forallb is_text row); reflexivity.
Qed.

(** X13.  When the driver answers and there is a description, [select]
    fetches one row and builds one [Dict] per column of that row, from the
    characters of the column: it raises TypeError when there is no row or
    when a column is not text, and otherwise returns as many entries as the
    row has columns. *)
Theorem select_iterates_columns rs g ctx c :
  held ctx = Some c ->
  query_answered g c ->
  description rs <> [] ->
  outcome_of (select rs g ctx)
  = match fetchone rs with
    | Raised e => Raised e
    | Return None => Raised TypeError
    | Return (Some row) =>
        if forallb is_text row
        then Return (SelList (map (fun x => Dict.__init__ (description rs)
                                              (text_chars x) []) row))
        else Raised TypeError
    end.
Proof.
  intros H A D. unfold select.
  rewrite (select_answered rs false g ctx c H A).
  unfold _select_result, lift. unfold bind at 1.
  destruct (fetchone rs) as [[row|]|e]; cbn [after]; try reflexivity.
  rewrite after_eq, bind_eq, dicts_of_named by assumption. cbn.
  destruct (forallb is_text row); reflexivity.
Qed.

Lemma select_iterates_columns_witness :
  let ctx := {| _DbCtx.connection :=
                  Some {| _LazyConnection.connection := Some 0%nat |};
                _DbCtx.transactions := 0 |} in
  let g := tick (env_with driver_ok) in
  let rs := {| description := ["id"; "email"];
               fetchone := Return (Some [VInt 200;
                                         VStr "wall.e@test.org"]) |} in
  held ctx = Some 0%nat
  /\ query_answered g 0%nat
  /\ description rs <> []
  /\ outcome_of (select rs g ctx) = Raised TypeError.
Proof.
  cbn zeta.
  assert (A : query_answered (tick (env_with driver_ok)) 0%nat)
    by (repeat split).
  assert (D : ["id"; "email"] <> @nil string) by discriminate.
  split; [reflexivity|split; [exact A|split; [exact D|]]].
  exact (select_iterates_columns
           {| description := ["id"; "email"];
              fetchone := Return (Some [VInt 200;
                                        VStr "wall.e@test.org"]) |}
           (tick (env_with driver_ok))
           {| _DbCtx.connection :=
                Some {| _LazyConnection.connection := Some 0%nat |};
              _DbCtx.transactions := 0 |} 0%nat eq_refl A D).
Defined.

(** ** [create_engine] *)

(** X14.  With no engine set, [create_engine] returns normally for every
    [db_type], but sets the engine only for 'postgres'; for any other type,
    'mysql' included, the engine stays None and a first cursor request raises
    AttributeError without reaching the driver. *)
Theorem create_engine_only_for_postgres {S} u pw db h p db_type
    (g : env) (s : S) :
  engine g = None ->
  let r := create_engine u pw db h p db_type g s in
  outcome_of r = Return tt
  /\ engine (env_of r)
     = (if String.eqb db_type "postgres"
        then Some (_Engine.__init__
                     {| user := u; password := pw; database := db;
                        host := h; port := p |})
        else None)
  /\ (String.eqb db_type "postgres" = false ->
      let r' := _LazyConnection.cursor (env_of r) _LazyConnection.__init__ in
      outcome_of r' = Raised AttributeError
      /\ filter is_driver_event (trace_of r') = []).
Proof.
  intros E. cbn zeta. unfold create_engine. unfold_db. cbn. rewrite E. cbn.
  destruct (String.eqb_spec db_type "postgres") as [->|N]; cbn.
  - split; [reflexivity|split; [reflexivity|discriminate]].
  - destruct (String.eqb db_type "mysql"); cbn; rewrite ?E;
      (split; [reflexivity|split; [reflexivity|]]); intros _; split;
      reflexivity.
Qed.

Lemma create_engine_only_for_postgres_witness :
  let g := {| engine := None; ticks := 0%nat; driver := driver_ok |} in
  let r := create_engine "root" "pw" "test" "127.0.0.1" 3306 "mysql" g tt in
  engine g = None
  /\ outcome_of r = Return tt
  /\ engine (env_of r) = None
  /\ outcome_of (_LazyConnection.cursor (env_of r) _LazyConnection.__init__)
     = Raised AttributeError.
Proof.
  cbn zeta. split; [reflexivity|].
  pose proof (create_engine_only_for_postgres (S := unit)
                "root" "pw" "test" "127.0.0.1" 3306 "mysql"
                {| engine := None; ticks := 0%nat; driver := driver_ok |} tt
                eq_refl) as (R & E & C).
  split; [exact R|split; [exact E|exact (proj1 (C eq_refl))]].
Defined.

(** ** [next_id] *)

Lemma length_append (a b : string) :
  String.length (a ++ b) = (String.length a + String.length b)%nat.
Proof. induction a as [|c a IH]; cbn; [reflexivity|now rewrite IH]. Qed.

Lemma length_zeros k : String.length (zeros k) = k.
Proof. induction k as [|k IH]; cbn; [reflexivity|now rewrite IH]. Qed.

Lemma decimal_length fuel : forall k n acc,
  0 <= n < 10 ^ Z.of_nat k ->
  (1 <= k <= fuel)%nat ->
  (String.length acc + 1 <= String.length (decimal fuel n acc)
   <= String.length acc + k)%nat.
Proof.
  induction fuel as [|fuel IH]; intros k n acc Hn Hk; [lia|].
  cbn [decimal]. destruct (Z.eqb_spec (n / 10) 0) as [E|E].
  - cbn [String.length]. lia.
  - assert (10 <= n).
    { destruct (Z_lt_le_dec n 10) as [L|L]; [|exact L].
      exfalso. apply E. apply Z.div_small. lia. }
    destruct k as [|[|k]]; [lia|cbn in Hn; lia|].
    assert (Hd : 0 <= n / 10 < 10 ^ Z.of_nat (S k)).
    { split; [apply Z.div_pos; lia|].
      apply Z.div_lt_upper_bound; [lia|].
      replace (Z.of_nat (S (S k))) with (Z.succ (Z.of_nat (S k))) in Hn
        by lia.
      rewrite Z.pow_succ_r in Hn by lia. lia. }
    specialize (IH (S k) (n / 10)
                   (String (Ascii.ascii_of_nat (48 + Z.to_nat (n mod 10))) acc)
                   Hd ltac:(lia)).
    cbn [String.length] in IH. lia.
Qed.

(** X15.  For a time stamp of 0 to 10^15 - 1 milliseconds and the 32
    hexadecimal digits of a UUID, [next_id] is 50 characters long. *)
Theorem next_id_has_50_characters millis hex :
  0 <= millis < 10 ^ 15 ->
  String.length hex = 32%nat ->
  String.length (next_id millis hex) = 50%nat.
Proof.
  intros Hm Hh. unfold next_id, format_015d.
  destruct (Z.ltb_spec millis 0) as [L|L]; [lia|].
  assert (D : (1 <= String.length (str_of_nonneg millis) <= 15)%nat).
  { unfold str_of_nonneg.
    destruct (Z.eq_dec millis 0) as [->|NZ]; [cbn; lia|].
    destruct (Z_lt_le_dec millis 15) as [Lt|Ge].
    - pose proof (decimal_length (S (Z.to_nat millis)) 2 millis ""
                    ltac:(cbn; lia) ltac:(lia)) as B.
      cbn [String.length] in B. lia.
    - pose proof (decimal_length (S (Z.to_nat millis)) 15 millis ""
                    ltac:(cbn; lia) ltac:(lia)) as B.
      cbn [String.length] in B. lia. }
  rewrite !length_append, length_zeros, Hh. cbn [String.length]. lia.
Qed.

Lemma next_id_has_50_characters_witness :
  0 <= 1794000000000 < 10 ^ 15
  /\ String.length "0123456789abcdef0123456789abcdef" = 32%nat
  /\ String.length (next_id 1794000000000 "0123456789abcdef0123456789abcdef")
     = 50%nat.
Proof.
  assert (R : 0 <= 1794000000000 < 10 ^ 15) by (cbn; lia).
  split; [exact R|split; [reflexivity|]].
  exact (next_id_has_50_characters 1794000000000
           "0123456789abcdef0123456789abcdef" R eq_refl).
Defined.

(** ** Instances *)

Lemma initialised_context_is_pinned_witness :
  let ctx := {| _DbCtx.connection :=
                  Some {| _LazyConnection.connection := Some 0%nat |};
                _DbCtx.transactions := 0 |} in
  let p := Seq UpdateStmt (WithTransaction (Seq CursorStmt UpdateStmt)) in
  let r := exec p (tick (env_with driver_rollback_fails)) ctx in
  _DbCtx.is_init ctx = true
  /\ held ctx = Some 0%nat
  /\ held (self_of r) = Some 0%nat
  /\ filter release (trace_of r) = []
  /\ filter is_connect (trace_of r) = [].
Proof.
  cbn zeta. split; [reflexivity|split; [reflexivity|]].
  pose proof (initialised_context_is_pinned
                (Seq UpdateStmt (WithTransaction (Seq CursorStmt UpdateStmt)))
                (tick (env_with driver_rollback_fails))
                {| _DbCtx.connection :=
                     Some {| _LazyConnection.connection := Some 0%nat |};
                   _DbCtx.transactions := 0 |} eq_refl) as (_ & R & H).
  destruct (H 0%nat eq_refl) as (H1 & H2 & _).
  split; [exact H1|split; [exact R|exact H2]].
Defined.

Lemma scopes_alone_never_connect_witness :
  let p := WithConnection (WithTransaction (WithTransaction Pass)) in
  let r := exec p (env_with driver_ok) _DbCtx.__init__ in
  requests_cursor p = false
  /\ held _DbCtx.__init__ = None
  /\ outcome_of r = Raised AttributeError
  /\ filter is_driver_event (trace_of r) = [].
Proof.
  cbn zeta. split; [reflexivity|split; [reflexivity|split; [reflexivity|]]].
  exact (proj2 (scopes_alone_never_connect
                  (WithConnection (WithTransaction (WithTransaction Pass)))
                  (env_with driver_ok) _DbCtx.__init__ eq_refl eq_refl)).
Defined.

Lemma transaction_without_connection_raises_witness :
  let body := RaiseStmt (StandardError "will cause rollback...") in
  let g := env_with driver_ok in
  let r0 := _TransactionCtx.__enter__ g _DbCtx.__init__ in
  outermost _DbCtx.__init__
  /\ held (self_of (exec body (env_of r0) (self_of r0))) = None
  /\ outcome_of (exec (WithTransaction body) g _DbCtx.__init__)
     = Raised AttributeError.
Proof.
  cbn zeta. split; [left; reflexivity|split; [reflexivity|]].
  exact (proj1 (transaction_without_connection_raises
                  (RaiseStmt (StandardError "will cause rollback..."))
                  (env_with driver_ok) _DbCtx.__init__
                  (or_introl eq_refl) eq_refl)).
Defined.

Lemma owning_transaction_resets_context_witness :
  let r := exec (WithTransaction UpdateStmt) (env_with driver_ok)
             _DbCtx.__init__ in
  _DbCtx.is_init _DbCtx.__init__ = false
  /\ outcome_of r = Return tt
  /\ self_of r = _DbCtx.__init__.
Proof.
  cbn zeta. split; [reflexivity|split; [reflexivity|]].
  exact (proj2 (proj2 (owning_transaction_resets_context UpdateStmt
                         (env_with driver_ok) _DbCtx.__init__ eq_refl))
               eq_refl).
Defined.

Lemma dict_setattr_getattr_witness :
  let d := Dict.__init__ ["id"; "name"] [VInt 100; VStr "Alice"] [] in
  NoDup (Dict.keys d)
  /\ NoDup (Dict.keys (Dict.__setattr__ d "passwd" (VStr "ALICE")))
  /\ outcome_of (Dict.__getattr__ (Dict.__setattr__ d "passwd" (VStr "ALICE"))
                   "passwd" (env_with driver_ok) tt)
     = Return (VStr "ALICE").
Proof.
  cbn zeta.
  assert (ND : NoDup (Dict.keys (Dict.__init__ ["id"; "name"]
                                   [VInt 100; VStr "Alice"] []))).
  { repeat constructor; cbn; intros H; intuition discriminate. }
  pose proof (dict_setattr_getattr (S := unit)
                (Dict.__init__ ["id"; "name"] [VInt 100; VStr "Alice"] [])
                "passwd" (VStr "ALICE") "passwd") as [G K].
  split; [exact ND|split; [exact (K ND)|]].
  rewrite G. reflexivity.
Defined.

